(** * FALCONN: the C++ wrapper layer (cpp_wrapper_impl.h)

    A shallow embedding of the construction-and-dispatch code of
    [src/include/falconn/wrapper/cpp_wrapper_impl.h]: parameter validation in
    [construct_table], the hash-bit sizing rule
    [compute_number_of_hash_functions], the assembly done by
    [construction_helper] and the query knobs of [LSHNNTableWrapper].

    C++ exceptions and mutation are modelled by one small monad: a computation
    runs on a state, returns either the exception thrown or a value, together
    with the state at that moment.  For the construction functions the state
    is the log of objects allocated with [new]; for the methods of the wrapper
    it is the wrapper object itself; for the sizing rule it is the parameter
    record behind the pointer argument. *)

From Stdlib Require Import ZArith List String Bool Lia.
Import ListNotations.
Local Open Scope Z_scope.

Set Implicit Arguments.

(** ** Exceptions *)

(** The two exception classes thrown by the wrapper layer, each carrying
    the message text of its [throw] site. *)
Inductive FalconnError : Type :=
| LSHNNTableSetupError (msg : string)
| LSHNearestNeighborTableError (msg : string).

Definition is_setup_error (e : FalconnError) : bool :=
  match e with
  | LSHNNTableSetupError _ => true
  | LSHNearestNeighborTableError _ => false
  end.

Definition is_runtime_error (e : FalconnError) : bool :=
  match e with
  | LSHNNTableSetupError _ => false
  | LSHNearestNeighborTableError _ => true
  end.

(** ** The exception-and-state monad *)

Module Exn.

Definition t (St A : Type) : Type := St -> (FalconnError + A) * St.

Definition ret {St A} (a : A) : t St A := fun s => (inr a, s).

Definition bind {St A B} (c : t St A) (f : A -> t St B) : t St B :=
  fun s =>
    match c s with
    | (inl e, s') => (inl e, s')
    | (inr a, s') => f a s'
    end.

Definition throw {St A} (e : FalconnError) : t St A := fun s => (inl e, s).

Definition get {St} : t St St := fun s => (inr s, s).

Definition modify {St} (f : St -> St) : t St unit := fun s => (inr tt, f s).

(** [when c e] is the statement [if (c) { throw e; }]. *)
Definition when {St} (c : bool) (e : FalconnError) : t St unit :=
  if c then throw e else ret tt.

(** Outcome and final state of a run. *)
Definition outcome {St A} (r : (FalconnError + A) * St) : FalconnError + A := fst r.
Definition final {St A} (r : (FalconnError + A) * St) : St := snd r.

Definition throws_setup_error {A} (o : FalconnError + A) : bool :=
  match o with
  | inl e => is_setup_error e
  | inr _ => false
  end.

Definition throws_runtime_error {A} (o : FalconnError + A) : bool :=
  match o with
  | inl e => is_runtime_error e
  | inr _ => false
  end.

End Exn.

Declare Scope exn_scope.
Delimit Scope exn_scope with exn.
Notation "x <- c ;; k" := (Exn.bind c (fun x => k))
  (at level 61, c at next level, right associativity) : exn_scope.
Notation "c ;;; k" := (Exn.bind c (fun _ => k))
  (at level 61, right associativity) : exn_scope.
Local Open Scope exn_scope.

(** ** Construction parameters (wrapper.h) *)

(** Modelled from the spec: the enumeration [LSHFamily] is declared in
    wrapper.h, which is not among the sources.  The spec lists [Hyperplane]
    and [CrossPolytope]; the [else] branches of [construct_table] and of
    [ComputeNumberOfHashFunctions::compute] handle any other value as an
    unknown family, which is the third constructor here. *)
Inductive LSHFamily : Type :=
| LSHFamily_Unknown
| Hyperplane
| CrossPolytope.

(** Modelled from the spec: the enumeration [DistanceFunction] of wrapper.h,
    [enum{NegativeInnerProduct, Unknown}] in the spec. *)
Inductive DistanceFunction : Type :=
| DistanceFunction_Unknown
| NegativeInnerProduct.

Definition LSHFamily_eqb (a b : LSHFamily) : bool :=
  match a, b with
  | LSHFamily_Unknown, LSHFamily_Unknown => true
  | Hyperplane, Hyperplane => true
  | CrossPolytope, CrossPolytope => true
  | _, _ => false
  end.

Definition DistanceFunction_eqb (a b : DistanceFunction) : bool :=
  match a, b with
  | DistanceFunction_Unknown, DistanceFunction_Unknown => true
  | NegativeInnerProduct, NegativeInnerProduct => true
  | _, _ => false
  end.

(** Modelled from the spec: the struct [LSHConstructionParameters] of
    wrapper.h, with the fields of the spec's ConstructionParameters record.
    Every integer field is a machine integer read as its value in [Z]; the
    code below only compares, copies and xors them. *)
Record LSHConstructionParameters : Type := {
  dimension : Z;
  k : Z;
  l : Z;
  distance_function : DistanceFunction;
  lsh_family : LSHFamily;
  num_rotations : Z;
  last_cp_dimension : Z;
  feature_hashing_dimension : Z;
  seed : Z
}.

(** The two assignments through the pointers [&(params->k)] and
    [&(params->last_cp_dimension)]. *)
Definition set_k (v : Z) (p : LSHConstructionParameters) : LSHConstructionParameters :=
  {| dimension := dimension p; k := v; l := l p;
     distance_function := distance_function p; lsh_family := lsh_family p;
     num_rotations := num_rotations p; last_cp_dimension := last_cp_dimension p;
     feature_hashing_dimension := feature_hashing_dimension p; seed := seed p |}.

Definition set_last_cp_dimension (v : Z) (p : LSHConstructionParameters)
  : LSHConstructionParameters :=
  {| dimension := dimension p; k := k p; l := l p;
     distance_function := distance_function p; lsh_family := lsh_family p;
     num_rotations := num_rotations p; last_cp_dimension := v;
     feature_hashing_dimension := feature_hashing_dimension p; seed := seed p |}.

(** ** Point representations *)

Record DenseVector (CoordinateType : Type) : Type :=
  { dense_coordinates : list CoordinateType }.

Record SparseVector (CoordinateType IndexType : Type) : Type :=
  { sparse_entries : list (IndexType * CoordinateType) }.

(** ** Message texts of the [throw] sites *)

Module Msg.

Definition dense_cp_dimension_unset : string :=
  "Vector dimension must be set to determine the number of dense cross polytope hash functions.".

Definition sparse_cp_dimension_unset : string :=
  "Feature hashing dimension must be set to determine  the number of sparse cross polytope hash functions.".

Definition unknown_family_for_bits : string :=
  "Cannot set paramters for unknown hash family.".

Definition num_probes : string :=
  "Number of probes must be at least 1.".

Definition bad_dimension : string :=
  "Point dimension must be at least 1. Maybe you forgot to set the point dimension in the parameter struct?".

Definition bad_k : string :=
  "The number of hash functions k must be at least 1. Maybe you forgot to set k in the parameter struct?".

Definition bad_l : string :=
  "The number of hash tables l must be at least 1. Maybe you forgot to set l in the parameter struct?".

Definition bad_distance_function : string :=
  "Unknown distance function. Maybe you forgot to set the distance function in the parameter struct?".

Definition bad_num_rotations : string :=
  "The number of pseudo-random rotations for the cross polytope hash must be non-negative. Maybe you forgot to set num_rotations in the parameter struct?".

Definition bad_last_cp_dimension : string :=
  "The last cross polytope dimension for the cross polytope hash must be at least 1. Maybe you forgot to set last_cp_dimension in the parameter struct?".

Definition unknown_family : string :=
  "Unknown hash family. Maybe you forgot to set the hash family in the parameter struct?".

End Msg.

(** ** What the wrapper layer takes from the headers it includes *)

(** The three things of the core headers that the wrapper code reads but
    that are declared elsewhere.  The development is parametric in them.
    - [kNoMaxNumCandidates]: the constant of the base class
      [LSHNearestNeighborTable] (wrapper.h), the "unlimited" sentinel.
    - [compute_k_parameters_for_bits rotation_dim bits k0 last0]: the helper of
      polytope_hash.h called as
      [compute_k_parameters_for_bits(dim, bits, &k, &last_cp_dimension)];
      [k0] and [last0] are the values behind the two pointers on entry, the
      result the values behind them on return.
    - [cp_hash_feature_hashing_message]: the text of the error of the sparse
      cross-polytope hash constructor (see [LSHFunction_ctor]). *)
Class Collaborators : Type := {
  kNoMaxNumCandidates : Z;
  compute_k_parameters_for_bits : Z -> Z -> Z -> Z -> Z * Z;
  cp_hash_feature_hashing_message : string
}.

(** ** Objects built during construction *)

(** Modelled from the spec: the hash classes of hyperplane_hash.h and
    polytope_hash.h are not among the sources.  A hash function object is
    represented by the class it is an instance of and the arguments its
    constructor received, in the order of the [new] expressions of
    [construct_table] and [construct_cp_hash]. *)
Inductive LSHFunction : Type :=
| HyperplaneHashDense (dim num_k num_l hash_seed : Z)
| HyperplaneHashSparse (dim num_k num_l hash_seed : Z)
| CrossPolytopeHashDense (dim num_k num_l rotations last_cp_dim hash_seed : Z)
| CrossPolytopeHashSparse
    (dim num_k num_l rotations feature_hashing_dim last_cp_dim hash_seed : Z).

(** Modelled from the spec: [get_l] of the hash classes, the number of
    repetitions the hash function was constructed with ("[l] hash tables and
    [l] hash-function repetitions always have matching cardinality"). *)
Definition get_l (h : LSHFunction) : Z :=
  match h with
  | HyperplaneHashDense _ _ num_l _ => num_l
  | HyperplaneHashSparse _ _ num_l _ => num_l
  | CrossPolytopeHashDense _ _ num_l _ _ _ => num_l
  | CrossPolytopeHashSparse _ _ num_l _ _ _ _ => num_l
  end.

(** The seed argument a hash function object was constructed with. *)
Definition get_seed (h : LSHFunction) : Z :=
  match h with
  | HyperplaneHashDense _ _ _ s => s
  | HyperplaneHashSparse _ _ _ s => s
  | CrossPolytopeHashDense _ _ _ _ _ s => s
  | CrossPolytopeHashSparse _ _ _ _ _ _ s => s
  end.

(** Modelled from the spec: the constructors of the hash classes.  The spec
    has construction fail with a setup error when the points are sparse, the
    family is cross-polytope and [feature_hashing_dimension] is unset, and the
    comment in [construct_table] places that check in the CP hash class; the
    test for "unset" is the one [ComputeNumberOfHashFunctions] uses for the
    same field.  For validated parameters the spec has every other hash
    constructor produce its object.  [None] stands for normal completion. *)
Definition LSHFunction_ctor `{Collaborators} (h : LSHFunction) : option FalconnError :=
  match h with
  | CrossPolytopeHashSparse _ _ _ _ feature_hashing_dim _ _ =>
      if feature_hashing_dim <=? 0
      then Some (LSHNNTableSetupError cp_hash_feature_hashing_message)
      else None
  | _ => None
  end.

(** The two specialisations of [CosineDistance]. *)
Inductive DistanceFunc : Type :=
| CosineDistanceDense
| CosineDistanceSparse.

(** Modelled from the spec: the classes of data_storage.h,
    probing_hash_table.h, composite_hash_table.h, lsh_table.h and nn_query.h
    are not among the sources.  Each object is the record of the arguments
    its constructor received in [construction_helper]; the spec has none of
    these constructors fail. *)
Record ArrayDataStorage (PointType : Type) : Type :=
  { storage_points : list PointType }.

Record HashTableFactory : Type :=
  { table_size : Z }.

Record StaticCompositeHashTable : Type :=
  { composite_l : Z;
    composite_factory : HashTableFactory }.

Record StaticLSHTable (PointType : Type) : Type :=
  { table_lsh : LSHFunction;
    table_hash_table : StaticCompositeHashTable;
    table_points : ArrayDataStorage PointType }.

Record LSHTableQuery (PointType : Type) : Type :=
  { query_parent : StaticLSHTable PointType }.

Record NearestNeighborQuery (PointType : Type) : Type :=
  { nn_table_query : LSHTableQuery PointType;
    nn_data_storage : ArrayDataStorage PointType;
    nn_distance : DistanceFunc }.

(** ** The wrapper class *)

Record LSHNNTableWrapper (PointType : Type) : Type := {
  lsh_ : LSHFunction;
  lsh_table_ : StaticLSHTable PointType;
  hash_table_factory_ : HashTableFactory;
  composite_hash_table_ : StaticCompositeHashTable;
  query_ : LSHTableQuery PointType;
  nn_query_ : NearestNeighborQuery PointType;
  data_storage_ : ArrayDataStorage PointType;
  num_probes_ : Z;
  max_num_candidates_ : Z
}.

Definition with_num_probes {PointType} (v : Z) (w : LSHNNTableWrapper PointType)
  : LSHNNTableWrapper PointType :=
  {| lsh_ := lsh_ w; lsh_table_ := lsh_table_ w;
     hash_table_factory_ := hash_table_factory_ w;
     composite_hash_table_ := composite_hash_table_ w;
     query_ := query_ w; nn_query_ := nn_query_ w;
     data_storage_ := data_storage_ w;
     num_probes_ := v; max_num_candidates_ := max_num_candidates_ w |}.

Definition with_max_num_candidates {PointType} (v : Z) (w : LSHNNTableWrapper PointType)
  : LSHNNTableWrapper PointType :=
  {| lsh_ := lsh_ w; lsh_table_ := lsh_table_ w;
     hash_table_factory_ := hash_table_factory_ w;
     composite_hash_table_ := composite_hash_table_ w;
     query_ := query_ w; nn_query_ := nn_query_ w;
     data_storage_ := data_storage_ w;
     num_probes_ := num_probes_ w; max_num_candidates_ := v |}.

(** A method of the wrapper runs on the wrapper object. *)
Definition Method (PointType A : Type) : Type :=
  Exn.t (LSHNNTableWrapper PointType) A.

Section Wrapper.

Context {PointType : Type}.

Definition set_num_probes (num_probes : Z) : Method PointType unit :=
  Exn.when (num_probes <=? 0) (LSHNearestNeighborTableError Msg.num_probes) ;;;
  Exn.modify (with_num_probes num_probes).

Definition get_num_probes : Method PointType Z :=
  this <- Exn.get ;;
  Exn.ret (num_probes_ this).

Definition set_max_num_candidates (max_num_candidates : Z) : Method PointType unit :=
  Exn.modify (with_max_num_candidates max_num_candidates).

Definition get_max_num_candidates : Method PointType Z :=
  this <- Exn.get ;;
  Exn.ret (max_num_candidates_ this).

End Wrapper.

(** ** Allocation *)

(** One entry per [new] expression evaluated, in evaluation order. *)
Inductive Allocation (PointType : Type) : Type :=
| alloc_LSH (h : LSHFunction)
| alloc_DataStorage (d : ArrayDataStorage PointType)
| alloc_Factory (f : HashTableFactory)
| alloc_CompositeTable (c : StaticCompositeHashTable)
| alloc_LSHTable (t : StaticLSHTable PointType)
| alloc_Query (q : LSHTableQuery PointType)
| alloc_NNQuery (n : NearestNeighborQuery PointType)
| alloc_Wrapper (w : LSHNNTableWrapper PointType).

Arguments alloc_LSH {PointType} h.
Arguments alloc_Factory {PointType} f.
Arguments alloc_CompositeTable {PointType} c.

(** A construction function runs on the log of allocations made so far. *)
Definition Build (PointType A : Type) : Type :=
  Exn.t (list (Allocation PointType)) A.

Definition new_ {PointType} (a : Allocation PointType) : Build PointType unit :=
  Exn.modify (fun log => log ++ [a]).

(** [new H(args)] for a hash class: storage is obtained, then the
    constructor runs and may throw. *)
Definition new_LSH `{Collaborators} {PointType} (h : LSHFunction)
  : Build PointType LSHFunction :=
  new_ (alloc_LSH h) ;;;
  match LSHFunction_ctor h with
  | Some e => Exn.throw e
  | None => Exn.ret h
  end.

(** [std::vector::size()] and arithmetic in [size_t]. *)
Definition size_t_modulus : Z := 2 ^ 64.

Definition size {PointType} (points : list PointType) : Z :=
  Z.of_nat (List.length points).

Definition size_t_mul (a b : Z) : Z := (a * b) mod size_t_modulus.

(** ** Point type traits *)

(** [PointTypeTraitsInternal<PointType>]: the distance function, the
    hyperplane hash class and the cross-polytope hash construction for a point
    type.  The primary template is empty, so only the two instances below
    exist. *)
Class PointTypeTraitsInternal (PointType : Type) : Type := {
  CosineDistance : DistanceFunc;
  HPHash : Z -> Z -> Z -> Z -> LSHFunction;
  construct_cp_hash : LSHConstructionParameters -> Build PointType LSHFunction
}.

#[export] Instance PointTypeTraitsInternal_Dense `{Collaborators} (CoordinateType : Type)
  : PointTypeTraitsInternal (DenseVector CoordinateType) := {
  CosineDistance := CosineDistanceDense;
  HPHash := HyperplaneHashDense;
  construct_cp_hash := fun params =>
    new_LSH (CrossPolytopeHashDense (dimension params)
               (k params) (l params) (num_rotations params)
               (last_cp_dimension params)
               (Z.lxor (seed params) 93384688))
}.

#[export] Instance PointTypeTraitsInternal_Sparse `{Collaborators}
  (CoordinateType IndexType : Type)
  : PointTypeTraitsInternal (SparseVector CoordinateType IndexType) := {
  CosineDistance := CosineDistanceSparse;
  HPHash := HyperplaneHashSparse;
  construct_cp_hash := fun params =>
    new_LSH (CrossPolytopeHashSparse (dimension params)
               (k params) (l params) (num_rotations params)
               (feature_hashing_dimension params) (last_cp_dimension params)
               (Z.lxor (seed params) 93384688))
}.

(** ** The hash-bit sizing rule *)

(** The rule runs on the record behind [LSHConstructionParameters* params]. *)
Definition Sizing (A : Type) : Type := Exn.t LSHConstructionParameters A.

(** The call [compute_k_parameters_for_bits(rotation_dim, bits, &(params->k),
    &(params->last_cp_dimension))]: the helper sees the two fields and nothing
    else of the record. *)
Definition call_compute_k_parameters_for_bits `{Collaborators}
  (rotation_dim number_of_hash_bits : Z) : Sizing unit :=
  Exn.modify (fun params =>
    let '(new_k, new_last) :=
      compute_k_parameters_for_bits rotation_dim number_of_hash_bits
        (k params) (last_cp_dimension params) in
    set_last_cp_dimension new_last (set_k new_k params)).

(** [ComputeNumberOfHashFunctions<PointType>::compute]. *)
Class ComputeNumberOfHashFunctions (PointType : Type) : Type := {
  compute : Z -> Sizing unit
}.

#[export] Instance ComputeNumberOfHashFunctions_Dense `{Collaborators}
  (CoordinateType : Type)
  : ComputeNumberOfHashFunctions (DenseVector CoordinateType) := {
  compute := fun number_of_hash_bits =>
    params <- Exn.get ;;
    if LSHFamily_eqb (lsh_family params) Hyperplane then
      Exn.modify (set_k number_of_hash_bits)
    else if LSHFamily_eqb (lsh_family params) CrossPolytope then
      Exn.when (dimension params <=? 0)
        (LSHNNTableSetupError Msg.dense_cp_dimension_unset) ;;;
      call_compute_k_parameters_for_bits (dimension params) number_of_hash_bits
    else
      Exn.throw (LSHNNTableSetupError Msg.unknown_family_for_bits)
}.

#[export] Instance ComputeNumberOfHashFunctions_Sparse `{Collaborators}
  (CoordinateType IndexType : Type)
  : ComputeNumberOfHashFunctions (SparseVector CoordinateType IndexType) := {
  compute := fun number_of_hash_bits =>
    params <- Exn.get ;;
    if LSHFamily_eqb (lsh_family params) Hyperplane then
      Exn.modify (set_k number_of_hash_bits)
    else if LSHFamily_eqb (lsh_family params) CrossPolytope then
      Exn.when (feature_hashing_dimension params <=? 0)
        (LSHNNTableSetupError Msg.sparse_cp_dimension_unset) ;;;
      call_compute_k_parameters_for_bits (feature_hashing_dimension params)
        number_of_hash_bits
    else
      Exn.throw (LSHNNTableSetupError Msg.unknown_family_for_bits)
}.

Definition compute_number_of_hash_functions (PointType : Type)
  `{ComputeNumberOfHashFunctions PointType} (number_of_hash_bits : Z)
  : Sizing unit :=
  compute number_of_hash_bits.

Arguments compute_number_of_hash_functions PointType {_} number_of_hash_bits.

(** The two instantiations of the function template. *)
Abbreviation dense_sizing CoordinateType :=
  (compute_number_of_hash_functions (DenseVector CoordinateType)) (only parsing).
Abbreviation sparse_sizing CoordinateType IndexType :=
  (compute_number_of_hash_functions (SparseVector CoordinateType IndexType))
  (only parsing).

(** ** Construction *)

Section Construction.

Context `{Collaborators}.
Context {PointType : Type}.

(** The constructor of [LSHNNTableWrapper]: the member initialisers, the
    default initialiser of [max_num_candidates_] and the body. *)
Definition LSHNNTableWrapper_ctor
  (lsh : LSHFunction)
  (lsh_table : StaticLSHTable PointType)
  (hash_table_factory : HashTableFactory)
  (composite_hash_table : StaticCompositeHashTable)
  (query : LSHTableQuery PointType)
  (nn_query : NearestNeighborQuery PointType)
  (data_storage : ArrayDataStorage PointType)
  : LSHNNTableWrapper PointType :=
  {| lsh_ := lsh;
     lsh_table_ := lsh_table;
     hash_table_factory_ := hash_table_factory;
     composite_hash_table_ := composite_hash_table;
     query_ := query;
     nn_query_ := nn_query;
     data_storage_ := data_storage;
     num_probes_ := get_l lsh;
     max_num_candidates_ := kNoMaxNumCandidates |}.

(** [DataStorageAdapter<std::vector<PointType>>::construct_data_storage]. *)
Definition construct_data_storage (points : list PointType)
  : Build PointType (ArrayDataStorage PointType) :=
  let res := {| storage_points := points |} in
  new_ (alloc_DataStorage res) ;;;
  Exn.ret res.

Definition construction_helper (distance : DistanceFunc)
  (points : list PointType) (params : LSHConstructionParameters)
  (lsh : LSHFunction) : Build PointType (LSHNNTableWrapper PointType) :=
  data_storage <- construct_data_storage points ;;
  let factory := {| table_size := size_t_mul 2 (size points) |} in
  new_ (alloc_Factory factory) ;;;
  let composite_table :=
    {| composite_l := l params; composite_factory := factory |} in
  new_ (alloc_CompositeTable composite_table) ;;;
  let lsh_table :=
    {| table_lsh := lsh; table_hash_table := composite_table;
       table_points := data_storage |} in
  new_ (alloc_LSHTable lsh_table) ;;;
  let query := {| query_parent := lsh_table |} in
  new_ (alloc_Query query) ;;;
  let nn_query :=
    {| nn_table_query := query; nn_data_storage := data_storage;
       nn_distance := distance |} in
  new_ (alloc_NNQuery nn_query) ;;;
  let result :=
    LSHNNTableWrapper_ctor lsh lsh_table factory composite_table query
      nn_query data_storage in
  new_ (alloc_Wrapper result) ;;;
  Exn.ret result.

Context `{PointTypeTraitsInternal PointType}.

(** The statement after the last [else] of the source is unreachable: each
    of the three branches returns or throws. *)
Definition construct_table (points : list PointType)
  (params : LSHConstructionParameters)
  : Build PointType (LSHNNTableWrapper PointType) :=
  Exn.when (dimension params <? 1) (LSHNNTableSetupError Msg.bad_dimension) ;;;
  Exn.when (k params <? 1) (LSHNNTableSetupError Msg.bad_k) ;;;
  Exn.when (l params <? 1) (LSHNNTableSetupError Msg.bad_l) ;;;
  Exn.when (negb (DistanceFunction_eqb (distance_function params)
                    NegativeInnerProduct))
    (LSHNNTableSetupError Msg.bad_distance_function) ;;;
  if LSHFamily_eqb (lsh_family params) Hyperplane then
    lsh <- new_LSH (HPHash (dimension params) (k params) (l params)
                      (Z.lxor (seed params) 93384688)) ;;
    construction_helper CosineDistance points params lsh
  else if LSHFamily_eqb (lsh_family params) CrossPolytope then
    Exn.when (num_rotations params <? 0)
      (LSHNNTableSetupError Msg.bad_num_rotations) ;;;
    Exn.when (last_cp_dimension params <=? 0)
      (LSHNNTableSetupError Msg.bad_last_cp_dimension) ;;;
    lsh <- construct_cp_hash params ;;
    construction_helper CosineDistance points params lsh
  else
    Exn.throw (LSHNNTableSetupError Msg.unknown_family).

End Construction.

(** ** The contracts, as the specification words them *)

(** The fields the parameter validator can reject. *)
Inductive InvalidField : Type :=
| invalid_dimension
| invalid_k
| invalid_l
| invalid_distance_function
| invalid_num_rotations
| invalid_last_cp_dimension.

(** The precedence order of the validator: dimension < 1, then k < 1, then
    l < 1, then a distance function other than the negative inner product,
    then, for the cross-polytope family, num_rotations < 0 and
    last_cp_dimension < 1. *)
Definition spec_first_invalid_field (params : LSHConstructionParameters)
  : option InvalidField :=
  if dimension params <? 1 then Some invalid_dimension
  else if k params <? 1 then Some invalid_k
  else if l params <? 1 then Some invalid_l
  else match distance_function params with
       | DistanceFunction_Unknown => Some invalid_distance_function
       | NegativeInnerProduct =>
           match lsh_family params with
           | CrossPolytope =>
               if num_rotations params <? 0 then Some invalid_num_rotations
               else if last_cp_dimension params <? 1
                    then Some invalid_last_cp_dimension
                    else None
           | _ => None
           end
       end.

(** The setup error that classifies a rejected field. *)
Definition setup_error_of (field : InvalidField) : FalconnError :=
  LSHNNTableSetupError
    match field with
    | invalid_dimension => Msg.bad_dimension
    | invalid_k => Msg.bad_k
    | invalid_l => Msg.bad_l
    | invalid_distance_function => Msg.bad_distance_function
    | invalid_num_rotations => Msg.bad_num_rotations
    | invalid_last_cp_dimension => Msg.bad_last_cp_dimension
    end.

(** Valid parameters: the four common requirements and those of the chosen
    family; for sparse points the cross-polytope family also needs the
    feature hashing dimension. *)
Definition spec_valid_common (params : LSHConstructionParameters) : bool :=
  (1 <=? dimension params) && (1 <=? k params) && (1 <=? l params)
  && DistanceFunction_eqb (distance_function params) NegativeInnerProduct.

Definition spec_valid_dense (params : LSHConstructionParameters) : bool :=
  spec_valid_common params
  && match lsh_family params with
     | Hyperplane => true
     | CrossPolytope =>
         (0 <=? num_rotations params) && (1 <=? last_cp_dimension params)
     | LSHFamily_Unknown => false
     end.

Definition spec_valid_sparse (params : LSHConstructionParameters) : bool :=
  spec_valid_common params
  && match lsh_family params with
     | Hyperplane => true
     | CrossPolytope =>
         (0 <=? num_rotations params) && (1 <=? last_cp_dimension params)
         && (1 <=? feature_hashing_dimension params)
     | LSHFamily_Unknown => false
     end.

(** Frame conditions of the sizing rule: which fields of the record a call
    leaves as they were. *)
Definition same_except_k (before after : LSHConstructionParameters) : Prop :=
  dimension after = dimension before
  /\ l after = l before
  /\ distance_function after = distance_function before
  /\ lsh_family after = lsh_family before
  /\ num_rotations after = num_rotations before
  /\ last_cp_dimension after = last_cp_dimension before
  /\ feature_hashing_dimension after = feature_hashing_dimension before
  /\ seed after = seed before.

Definition same_except_k_and_last_cp_dimension
  (before after : LSHConstructionParameters) : Prop :=
  dimension after = dimension before
  /\ l after = l before
  /\ distance_function after = distance_function before
  /\ lsh_family after = lsh_family before
  /\ num_rotations after = num_rotations before
  /\ feature_hashing_dimension after = feature_hashing_dimension before
  /\ seed after = seed before.

(** The frame of one run of the sizing rule started on [params], stated on
    its result pair. *)
Definition sizing_frame (params : LSHConstructionParameters)
  (r : (FalconnError + unit) * LSHConstructionParameters) : Prop :=
  (lsh_family params = Hyperplane ->
     Exn.outcome r = inr tt /\ same_except_k params (Exn.final r))
  /\ (lsh_family params = CrossPolytope ->
      Exn.outcome r = inr tt ->
      same_except_k_and_last_cp_dimension params (Exn.final r))
  /\ (forall e, Exn.outcome r = inl e -> Exn.final r = params).

(** The hash function object that [construct_table] asks for on dense and
    on sparse points, by family: the [new] expression of the hyperplane
    branch and the one of [construct_cp_hash]. *)
Definition dense_hash_of (params : LSHConstructionParameters) : LSHFunction :=
  match lsh_family params with
  | CrossPolytope =>
      CrossPolytopeHashDense (dimension params) (k params) (l params)
        (num_rotations params) (last_cp_dimension params)
        (Z.lxor (seed params) 93384688)
  | _ =>
      HyperplaneHashDense (dimension params) (k params) (l params)
        (Z.lxor (seed params) 93384688)
  end.

Definition sparse_hash_of (params : LSHConstructionParameters) : LSHFunction :=
  match lsh_family params with
  | CrossPolytope =>
      CrossPolytopeHashSparse (dimension params) (k params) (l params)
        (num_rotations params) (feature_hashing_dimension params)
        (last_cp_dimension params) (Z.lxor (seed params) 93384688)
  | _ =>
      HyperplaneHashSparse (dimension params) (k params) (l params)
        (Z.lxor (seed params) 93384688)
  end.

(** A construction run started on [log] builds its hash function with seed
    [s]: the first object it allocates is a hash function constructed with
    [s], and the hash function of a returned index has seed [s]. *)
Definition builds_hash_with_seed {PointType}
  (run : Build PointType (LSHNNTableWrapper PointType))
  (log : list (Allocation PointType)) (s : Z) : Prop :=
  (exists h rest,
      Exn.final (run log) = log ++ alloc_LSH h :: rest /\ get_seed h = s)
  /\ (forall w, Exn.outcome (run log) = inr w -> get_seed (lsh_ w) = s).

(** ** Concrete inputs *)

(** An instantiation of the collaborators on which the model can be run:
    the sentinel is [-1], the sizing helper spends [log2 dim + 1] bits per
    hash function and keeps the full dimension for the last one. *)
Definition example_collaborators : Collaborators :=
  {| kNoMaxNumCandidates := -1;
     compute_k_parameters_for_bits := fun rotation_dim bits _ _ =>
       (bits / (Z.log2_up rotation_dim + 1), rotation_dim);
     cp_hash_feature_hashing_message := "Feature hashing dimension must be at least 1." |}.

Definition example_parameters (family : LSHFamily) : LSHConstructionParameters :=
  {| dimension := 128; k := 8; l := 10;
     distance_function := NegativeInnerProduct; lsh_family := family;
     num_rotations := 2; last_cp_dimension := 4;
     feature_hashing_dimension := -1; seed := 409556018 |}.

(** The same record with the dimension left at zero, and with the feature
    hashing dimension set. *)
Definition example_parameters_without_dimension : LSHConstructionParameters :=
  {| dimension := 0; k := 8; l := 10;
     distance_function := NegativeInnerProduct; lsh_family := Hyperplane;
     num_rotations := 2; last_cp_dimension := 4;
     feature_hashing_dimension := -1; seed := 409556018 |}.

Definition example_sparse_parameters : LSHConstructionParameters :=
  {| dimension := 100000; k := 3; l := 10;
     distance_function := NegativeInnerProduct; lsh_family := CrossPolytope;
     num_rotations := 2; last_cp_dimension := 4;
     feature_hashing_dimension := 1024; seed := 409556018 |}.

Definition example_dense_points : list (DenseVector Z) :=
  [ {| dense_coordinates := [1; 0] |}; {| dense_coordinates := [0; 1] |} ].

Definition example_sparse_points : list (SparseVector Z nat) :=
  [ {| sparse_entries := [(0%nat, 1)] |}; {| sparse_entries := [(5%nat, 1)] |} ].

(** An index as [construct_table] returns it for the example inputs. *)
Definition example_index : LSHNNTableWrapper (DenseVector Z) :=
  let lsh := HyperplaneHashDense 128 8 10 (Z.lxor 409556018 93384688) in
  let data := {| storage_points := example_dense_points |} in
  let factory := {| table_size := 4 |} in
  let composite := {| composite_l := 10; composite_factory := factory |} in
  let table := {| table_lsh := lsh; table_hash_table := composite;
                  table_points := data |} in
  let query := {| query_parent := table |} in
  let nn := {| nn_table_query := query; nn_data_storage := data;
               nn_distance := CosineDistanceDense |} in
  {| lsh_ := lsh; lsh_table_ := table; hash_table_factory_ := factory;
     composite_hash_table_ := composite; query_ := query; nn_query_ := nn;
     data_storage_ := data; num_probes_ := 10; max_num_candidates_ := -1 |}.

(** ** The query methods of the wrapper class *)

(** The remaining methods of [LSHNNTableWrapper] hand the query over to the
    objects behind [nn_query_] and [query_], whose classes (nn_query.h,
    lsh_table.h) are not among the sources.  Such a call is modelled by what
    the wrapper passes: the method called and its arguments.  The methods
    that fill [std::vector<KeyType>* result] pass the vector; its content
    on entry is the [result] argument, its content on return the answer. *)
Section QueryMethods.

Context {PointType KeyType DistanceType QueryStatistics : Type}.

(** The calls on [nn_query_] (prefix [nn_]) and on [query_] (prefix
    [query_]), indexed by the type of what comes back. *)
Inductive EngineCall : Type -> Type :=
| nn_find_closest (q q_comp : PointType) (num_probes max_num_candidates : Z)
  : EngineCall KeyType
| nn_find_k_nearest_neighbors (q q_comp : PointType)
    (k_neighbors num_probes max_num_candidates : Z) (result : list KeyType)
  : EngineCall (list KeyType)
| nn_find_near_neighbors (q q_comp : PointType) (threshold : DistanceType)
    (num_probes max_num_candidates : Z) (result : list KeyType)
  : EngineCall (list KeyType)
| query_get_candidates_with_duplicates (q : PointType)
    (num_probes max_num_candidates : Z) (result : list KeyType)
  : EngineCall (list KeyType)
| query_get_unique_candidates (q : PointType)
    (num_probes max_num_candidates : Z) (result : list KeyType)
  : EngineCall (list KeyType)
| query_get_unique_sorted_candidates (q : PointType)
    (num_probes max_num_candidates : Z) (result : list KeyType)
  : EngineCall (list KeyType)
| nn_reset_query_statistics : EngineCall unit
| nn_get_query_statistics : EngineCall QueryStatistics.

(** A call as it is recorded, whatever its answer type. *)
Definition LoggedCall : Type := { A : Type & EngineCall A }.

(** The probe count and the candidate cap a call carries, if it has them. *)
Definition call_knobs {A} (c : EngineCall A) : option (Z * Z) :=
  match c with
  | nn_find_closest _ _ np mc => Some (np, mc)
  | nn_find_k_nearest_neighbors _ _ _ np mc _ => Some (np, mc)
  | nn_find_near_neighbors _ _ _ np mc _ => Some (np, mc)
  | query_get_candidates_with_duplicates _ np mc _ => Some (np, mc)
  | query_get_unique_candidates _ np mc _ => Some (np, mc)
  | query_get_unique_sorted_candidates _ np mc _ => Some (np, mc)
  | nn_reset_query_statistics => None
  | nn_get_query_statistics => None
  end.

Definition logged_knobs (c : LoggedCall) : option (Z * Z) :=
  call_knobs (projT2 c).

(** A recorded call that carries a probe count carries one of at least 1. *)
Definition asks_for_a_probe (c : LoggedCall) : Prop :=
  forall np mc, logged_knobs c = Some (np, mc) -> 1 <= np.

(** The query objects as the wrapper sees them: what a call answers, or
    throws, given the calls made before it. *)
Definition Engine : Type :=
  forall A : Type, list LoggedCall -> EngineCall A -> FalconnError + A.

(** The wrapper object together with the calls it has made so far. *)
Record FacadeState : Type := {
  facade_index : LSHNNTableWrapper PointType;
  engine_calls : list LoggedCall
}.

Definition Facade (A : Type) : Type := Exn.t FacadeState A.

(** A method that only touches the wrapper object. *)
Definition on_index {A} (m : Method PointType A) : Facade A :=
  fun s =>
    let (r, w) := m (facade_index s) in
    (r, {| facade_index := w; engine_calls := engine_calls s |}).

Definition this_index : Facade (LSHNNTableWrapper PointType) :=
  fun s => (inr (facade_index s), s).

Variable engine : Engine.

Definition call_engine {A} (c : EngineCall A) : Facade A :=
  fun s =>
    (engine (engine_calls s) c,
     {| facade_index := facade_index s;
        engine_calls := engine_calls s ++ [existT EngineCall A c] |}).

Definition find_closest (q : PointType) : Facade KeyType :=
  this <- this_index ;;
  call_engine
    (nn_find_closest q q (num_probes_ this) (max_num_candidates_ this)).

Definition find_k_nearest_neighbors (q : PointType) (k_neighbors : Z)
  (result : list KeyType) : Facade (list KeyType) :=
  this <- this_index ;;
  call_engine
    (nn_find_k_nearest_neighbors q q k_neighbors (num_probes_ this)
       (max_num_candidates_ this) result).

Definition find_near_neighbors (q : PointType) (threshold : DistanceType)
  (result : list KeyType) : Facade (list KeyType) :=
  this <- this_index ;;
  call_engine
    (nn_find_near_neighbors q q threshold (num_probes_ this)
       (max_num_candidates_ this) result).

Definition get_candidates_with_duplicates (q : PointType)
  (result : list KeyType) : Facade (list KeyType) :=
  this <- this_index ;;
  call_engine
    (query_get_candidates_with_duplicates q (num_probes_ this)
       (max_num_candidates_ this) result).

Definition get_unique_candidates (q : PointType) (result : list KeyType)
  : Facade (list KeyType) :=
  this <- this_index ;;
  call_engine
    (query_get_unique_candidates q (num_probes_ this)
       (max_num_candidates_ this) result).

Definition get_unique_sorted_candidates (q : PointType)
  (result : list KeyType) : Facade (list KeyType) :=
  this <- this_index ;;
  call_engine
    (query_get_unique_sorted_candidates q (num_probes_ this)
       (max_num_candidates_ this) result).

Definition reset_query_statistics : Facade unit :=
  call_engine nn_reset_query_statistics.

Definition get_query_statistics : Facade QueryStatistics :=
  call_engine nn_get_query_statistics.

(** *** Clients *)

(** One call of a public method by a client of the index. *)
Inductive FacadeCall : Type :=
| do_set_num_probes (num_probes : Z)
| do_get_num_probes
| do_set_max_num_candidates (max_num_candidates : Z)
| do_get_max_num_candidates
| do_find_closest (q : PointType)
| do_find_k_nearest_neighbors (q : PointType) (k_neighbors : Z)
    (result : list KeyType)
| do_find_near_neighbors (q : PointType) (threshold : DistanceType)
    (result : list KeyType)
| do_get_candidates_with_duplicates (q : PointType) (result : list KeyType)
| do_get_unique_candidates (q : PointType) (result : list KeyType)
| do_get_unique_sorted_candidates (q : PointType) (result : list KeyType)
| do_reset_query_statistics
| do_get_query_statistics.

(** The state a call leaves behind, whether it returns or throws. *)
Definition run_call (c : FacadeCall) (s : FacadeState) : FacadeState :=
  match c with
  | do_set_num_probes p => Exn.final (on_index (set_num_probes p) s)
  | do_get_num_probes => Exn.final (on_index get_num_probes s)
  | do_set_max_num_candidates mc =>
      Exn.final (on_index (set_max_num_candidates mc) s)
  | do_get_max_num_candidates => Exn.final (on_index get_max_num_candidates s)
  | do_find_closest q => Exn.final (find_closest q s)
  | do_find_k_nearest_neighbors q kn r =>
      Exn.final (find_k_nearest_neighbors q kn r s)
  | do_find_near_neighbors q t r => Exn.final (find_near_neighbors q t r s)
  | do_get_candidates_with_duplicates q r =>
      Exn.final (get_candidates_with_duplicates q r s)
  | do_get_unique_candidates q r => Exn.final (get_unique_candidates q r s)
  | do_get_unique_sorted_candidates q r =>
      Exn.final (get_unique_sorted_candidates q r s)
  | do_reset_query_statistics => Exn.final (reset_query_statistics s)
  | do_get_query_statistics => Exn.final (get_query_statistics s)
  end.

(** A client that makes the calls one after the other, catching what is
    thrown. *)
Definition run_calls (cs : list FacadeCall) (s : FacadeState) : FacadeState :=
  fold_left (fun s c => run_call c s) cs s.

(** The values of the two knobs after a sequence of calls, read off the
    calls alone: only a [set_num_probes] with a positive argument and a
    [set_max_num_candidates] count. *)
Definition knobs_after_call (c : FacadeCall) (knobs : Z * Z) : Z * Z :=
  match c with
  | do_set_num_probes p => if p <=? 0 then knobs else (p, snd knobs)
  | do_set_max_num_candidates mc => (fst knobs, mc)
  | _ => knobs
  end.

Definition knobs_after (cs : list FacadeCall) (knobs : Z * Z) : Z * Z :=
  fold_left (fun kn c => knobs_after_call c kn) cs knobs.

(** The engine calls a sequence of client calls gives rise to, read off the
    calls and the knobs at the start. *)
Definition engine_call_of (c : FacadeCall) (knobs : Z * Z) : list LoggedCall :=
  let (np, mc) := knobs in
  match c with
  | do_find_closest q => [existT EngineCall _ (nn_find_closest q q np mc)]
  | do_find_k_nearest_neighbors q kn r =>
      [existT EngineCall _ (nn_find_k_nearest_neighbors q q kn np mc r)]
  | do_find_near_neighbors q t r =>
      [existT EngineCall _ (nn_find_near_neighbors q q t np mc r)]
  | do_get_candidates_with_duplicates q r =>
      [existT EngineCall _ (query_get_candidates_with_duplicates q np mc r)]
  | do_get_unique_candidates q r =>
      [existT EngineCall _ (query_get_unique_candidates q np mc r)]
  | do_get_unique_sorted_candidates q r =>
      [existT EngineCall _ (query_get_unique_sorted_candidates q np mc r)]
  | do_reset_query_statistics => [existT EngineCall _ nn_reset_query_statistics]
  | do_get_query_statistics => [existT EngineCall _ nn_get_query_statistics]
  | _ => []
  end.

Fixpoint engine_calls_of (cs : list FacadeCall) (knobs : Z * Z)
  : list LoggedCall :=
  match cs with
  | [] => []
  | c :: cs' =>
      engine_call_of c knobs ++ engine_calls_of cs' (knobs_after_call c knobs)
  end.

End QueryMethods.

(** The knobs of an index, as a pair. *)
Definition knobs_of {PointType} (w : LSHNNTableWrapper PointType) : Z * Z :=
  (num_probes_ w, max_num_candidates_ w).

(** The parts of an index fixed at construction: everything but the two
    knobs. *)
Definition same_components {PointType} (w w' : LSHNNTableWrapper PointType)
  : Prop :=
  lsh_ w' = lsh_ w
  /\ lsh_table_ w' = lsh_table_ w
  /\ hash_table_factory_ w' = hash_table_factory_ w
  /\ composite_hash_table_ w' = composite_hash_table_ w
  /\ query_ w' = query_ w
  /\ nn_query_ w' = nn_query_ w
  /\ data_storage_ w' = data_storage_ w.

(** The objects of an index refer to each other the way
    [construction_helper] links them. *)
Definition index_is_wired {PointType} (w : LSHNNTableWrapper PointType) : Prop :=
  table_lsh (lsh_table_ w) = lsh_ w
  /\ table_hash_table (lsh_table_ w) = composite_hash_table_ w
  /\ table_points (lsh_table_ w) = data_storage_ w
  /\ composite_factory (composite_hash_table_ w) = hash_table_factory_ w
  /\ query_parent (query_ w) = lsh_table_ w
  /\ nn_table_query (nn_query_ w) = query_ w
  /\ nn_data_storage (nn_query_ w) = data_storage_ w.

(** The objects allocated for an index, in the order of
    [construct_table]. *)
Definition allocations_of {PointType} (w : LSHNNTableWrapper PointType)
  : list (Allocation PointType) :=
  [ alloc_LSH (lsh_ w);
    alloc_DataStorage (data_storage_ w);
    alloc_Factory (hash_table_factory_ w);
    alloc_CompositeTable (composite_hash_table_ w);
    alloc_LSHTable (lsh_table_ w);
    alloc_Query (query_ w);
    alloc_NNQuery (nn_query_ w);
    alloc_Wrapper w ].

(** How the seed [inner] of a hash function relates to the seed [outer] of
    the parameters it was built from: it differs from it, xoring it with the
    constant again gives [outer] back, and it fits in 64 bits when [outer]
    does. *)
Definition seed_is_derived (outer inner : Z) : Prop :=
  inner <> outer
  /\ Z.lxor inner 93384688 = outer
  /\ (0 <= outer < 2 ^ 64 -> 0 <= inner < 2 ^ 64).


(** An engine for running the model: it answers the first stored key, the
    keys handed in, and the number of calls made so far. *)
Definition example_engine {PointType : Type} : @Engine PointType nat Z nat :=
  fun A calls c =>
    match c in EngineCall A return FalconnError + A with
    | nn_find_closest _ _ _ _ => inr 0%nat
    | nn_find_k_nearest_neighbors _ _ _ _ _ r => inr r
    | nn_find_near_neighbors _ _ _ _ _ r => inr r
    | query_get_candidates_with_duplicates _ _ _ r => inr r
    | query_get_unique_candidates _ _ _ r => inr r
    | query_get_unique_sorted_candidates _ _ _ r => inr r
    | nn_reset_query_statistics => inr tt
    | nn_get_query_statistics => inr (List.length calls)
    end.

Definition example_query_point : DenseVector Z :=
  {| dense_coordinates := [1; 0] |}.

(** A client session: a rejected probe count, a query, a cap, an accepted
    probe count, another query. *)
Definition example_calls : list (@FacadeCall (DenseVector Z) nat Z) :=
  [ do_set_num_probes 0;
    do_find_closest example_query_point;
    do_set_max_num_candidates 5;
    do_set_num_probes 3;
    do_get_unique_candidates example_query_point [] ].

Definition example_fresh_state : @FacadeState (DenseVector Z) nat Z nat :=
  {| facade_index := example_index; engine_calls := [] |}.

(** * Verification *)

Ltac exn_unfold :=
  unfold Exn.bind, Exn.when, Exn.throw, Exn.ret, Exn.modify, Exn.get,
    Exn.outcome, Exn.final in *.

(** Decide the next integer test of the goal both ways. *)
Ltac case_test :=
  match goal with
  | |- context [ (?a <? ?b) ] => destruct (Z.ltb_spec a b)
  | |- context [ (?a <=? ?b) ] => destruct (Z.leb_spec a b)
  end.

(** ** Sanity runs of the model *)

Section SanityRuns.

#[local] Existing Instance example_collaborators.

Example example_index_is_constructed :
  construct_table example_dense_points (example_parameters Hyperplane) []
  = (inr example_index,
     [ alloc_LSH (lsh_ example_index);
       alloc_DataStorage (data_storage_ example_index);
       alloc_Factory (hash_table_factory_ example_index);
       alloc_CompositeTable (composite_hash_table_ example_index);
       alloc_LSHTable (lsh_table_ example_index);
       alloc_Query (query_ example_index);
       alloc_NNQuery (nn_query_ example_index);
       alloc_Wrapper example_index ]).
Proof. vm_compute. reflexivity. Qed.

Example example_sparse_cross_polytope_is_rejected :
  construct_table example_sparse_points (example_parameters CrossPolytope) []
  = (inl (LSHNNTableSetupError "Feature hashing dimension must be at least 1."),
     [ alloc_LSH (CrossPolytopeHashSparse 128 8 10 2 (-1) 4
                    (Z.lxor 409556018 93384688)) ]).
Proof. vm_compute. reflexivity. Qed.

Example example_dense_cross_polytope_sizing :
  compute_number_of_hash_functions (DenseVector Z) 32
    (example_parameters CrossPolytope)
  = (inr tt,
     set_last_cp_dimension 128 (set_k 4 (example_parameters CrossPolytope))).
Proof. vm_compute. reflexivity. Qed.

Example example_set_num_probes_rejects_zero :
  set_num_probes 0 example_index
  = (inl (LSHNearestNeighborTableError Msg.num_probes), example_index).
Proof. reflexivity. Qed.

End SanityRuns.

(** ** The query knobs of the facade *)

Section KnobProofs.

Context {PointType : Type}.
Implicit Types (w : LSHNNTableWrapper PointType) (p c : Z).

Lemma set_num_probes_throws w p :
  p <= 0 ->
  set_num_probes p w = (inl (LSHNearestNeighborTableError Msg.num_probes), w).
Proof.
  intros Hp. unfold set_num_probes. exn_unfold.
  case_test; [reflexivity | lia].
Qed.

Lemma set_num_probes_returns w p :
  1 <= p -> set_num_probes p w = (inr tt, with_num_probes p w).
Proof.
  intros Hp. unfold set_num_probes. exn_unfold.
  case_test; [lia | reflexivity].
Qed.

Lemma set_num_probes_success_inv w p :
  Exn.outcome (set_num_probes p w) = inr tt -> 1 <= p.
Proof.
  intros Hok. destruct (Z_le_gt_dec p 0) as [Hle | Hgt]; [| lia].
  rewrite (set_num_probes_throws w Hle) in Hok. discriminate Hok.
Qed.

(** C4. On every index, [set_num_probes p] with [p <= 0] (so for [0] and
    for [-1]) throws the runtime error and leaves the index, hence its
    [num_probes_], as it was; with [p >= 1] it returns and the index differs
    from the old one in [num_probes_] only, which is now [p]. *)
Theorem set_num_probes_contract w p :
  (p <= 0 ->
     set_num_probes p w
     = (inl (LSHNearestNeighborTableError Msg.num_probes), w)
     /\ Exn.throws_runtime_error (Exn.outcome (set_num_probes p w)) = true
     /\ num_probes_ (Exn.final (set_num_probes p w)) = num_probes_ w)
  /\ (1 <= p ->
        set_num_probes p w = (inr tt, with_num_probes p w)
        /\ num_probes_ (Exn.final (set_num_probes p w)) = p)
  /\ Exn.final (set_num_probes 0 w) = w
  /\ Exn.throws_runtime_error (Exn.outcome (set_num_probes 0 w)) = true
  /\ Exn.final (set_num_probes (-1) w) = w
  /\ Exn.throws_runtime_error (Exn.outcome (set_num_probes (-1) w)) = true.
Proof.
  split; [| split].
  - intros Hp. rewrite (set_num_probes_throws w Hp). repeat split.
  - intros Hp. rewrite (set_num_probes_returns w Hp). repeat split.
  - repeat split.
Qed.

(** C10. [set_max_num_candidates c] returns for every [c], zero and negative
    values included, and [get_max_num_candidates] called next returns [c];
    [get_num_probes] called after a [set_num_probes p] that returned gives
    [p]; neither getter changes the index. *)
Theorem knobs_read_back w :
  (forall c,
      set_max_num_candidates c w = (inr tt, with_max_num_candidates c w)
      /\ (set_max_num_candidates c ;;; get_max_num_candidates) w
         = (inr c, with_max_num_candidates c w))
  /\ (forall p,
         Exn.outcome (set_num_probes p w) = inr tt ->
         (set_num_probes p ;;; get_num_probes) w
         = (inr p, with_num_probes p w))
  /\ get_num_probes w = (inr (num_probes_ w), w)
  /\ get_max_num_candidates w = (inr (max_num_candidates_ w), w).
Proof.
  split; [| split; [| split]].
  - intros c. split; reflexivity.
  - intros p Hok. apply set_num_probes_success_inv in Hok.
    unfold Exn.bind. rewrite (set_num_probes_returns w Hok). reflexivity.
  - reflexivity.
  - reflexivity.
Qed.

End KnobProofs.

(** ** The hash-bit sizing rule *)

Section SizingProofs.

Context `{Collaborators}.
Variables CoordinateType IndexType : Type.

Lemma set_k_frame v params : same_except_k params (set_k v params).
Proof. repeat split. Qed.

Lemma call_compute_k_parameters_for_bits_frame rotation_dim bits params :
  Exn.outcome (call_compute_k_parameters_for_bits rotation_dim bits params)
  = inr tt
  /\ same_except_k_and_last_cp_dimension params
       (Exn.final (call_compute_k_parameters_for_bits rotation_dim bits params)).
Proof.
  unfold call_compute_k_parameters_for_bits. exn_unfold. cbn [fst snd].
  destruct (compute_k_parameters_for_bits rotation_dim bits (k params)
              (last_cp_dimension params)) as [new_k new_last].
  repeat split.
Qed.

(** Each specialisation, family by family. *)
Lemma dense_sizing_hyperplane b params :
  lsh_family params = Hyperplane ->
  dense_sizing CoordinateType b params = (inr tt, set_k b params).
Proof.
  intros Hf. unfold compute_number_of_hash_functions, compute; cbn.
  exn_unfold. rewrite Hf. reflexivity.
Qed.

Lemma sparse_sizing_hyperplane b params :
  lsh_family params = Hyperplane ->
  sparse_sizing CoordinateType IndexType b params = (inr tt, set_k b params).
Proof.
  intros Hf. unfold compute_number_of_hash_functions, compute; cbn.
  exn_unfold. rewrite Hf. reflexivity.
Qed.

Lemma dense_sizing_cross_polytope b params :
  lsh_family params = CrossPolytope ->
  dense_sizing CoordinateType b params
  = if dimension params <=? 0
    then (inl (LSHNNTableSetupError Msg.dense_cp_dimension_unset), params)
    else call_compute_k_parameters_for_bits (dimension params) b params.
Proof.
  intros Hf. unfold compute_number_of_hash_functions, compute; cbn.
  exn_unfold. rewrite Hf. cbn. case_test; reflexivity.
Qed.

Lemma sparse_sizing_cross_polytope b params :
  lsh_family params = CrossPolytope ->
  sparse_sizing CoordinateType IndexType b params
  = if feature_hashing_dimension params <=? 0
    then (inl (LSHNNTableSetupError Msg.sparse_cp_dimension_unset), params)
    else call_compute_k_parameters_for_bits (feature_hashing_dimension params)
           b params.
Proof.
  intros Hf. unfold compute_number_of_hash_functions, compute; cbn.
  exn_unfold. rewrite Hf. cbn. case_test; reflexivity.
Qed.

Lemma dense_sizing_unknown b params :
  lsh_family params = LSHFamily_Unknown ->
  dense_sizing CoordinateType b params
  = (inl (LSHNNTableSetupError Msg.unknown_family_for_bits), params).
Proof.
  intros Hf. unfold compute_number_of_hash_functions, compute; cbn.
  exn_unfold. rewrite Hf. reflexivity.
Qed.

Lemma sparse_sizing_unknown b params :
  lsh_family params = LSHFamily_Unknown ->
  sparse_sizing CoordinateType IndexType b params
  = (inl (LSHNNTableSetupError Msg.unknown_family_for_bits), params).
Proof.
  intros Hf. unfold compute_number_of_hash_functions, compute; cbn.
  exn_unfold. rewrite Hf. reflexivity.
Qed.

(** C5. With the hyperplane family the sizing rule returns with [k] equal to
    the number of hash bits, whatever that number (so for every [b >= 1]),
    for dense and for sparse points. *)
Theorem hyperplane_k_is_number_of_hash_bits b params :
  lsh_family params = Hyperplane ->
  (Exn.outcome (dense_sizing CoordinateType b params) = inr tt
   /\ k (Exn.final (dense_sizing CoordinateType b params)) = b)
  /\ (Exn.outcome (sparse_sizing CoordinateType IndexType b params) = inr tt
      /\ k (Exn.final (sparse_sizing CoordinateType IndexType b params)) = b).
Proof.
  intros Hf.
  rewrite (dense_sizing_hyperplane b params Hf),
    (sparse_sizing_hyperplane b params Hf).
  repeat split.
Qed.

(** C6. With the cross-polytope family the sizing rule throws a setup error
    exactly when the governing dimension is unset, that is [<= 0]:
    [dimension] for dense points, [feature_hashing_dimension] for sparse
    points.  When it throws, the error is the one of that check; when the
    field is set, the rule returns. *)
Theorem cross_polytope_sizing_needs_dimension b params :
  lsh_family params = CrossPolytope ->
  (Exn.throws_setup_error (Exn.outcome (dense_sizing CoordinateType b params))
   = (dimension params <=? 0)
   /\ (dimension params <= 0 ->
       Exn.outcome (dense_sizing CoordinateType b params)
       = inl (LSHNNTableSetupError Msg.dense_cp_dimension_unset))
   /\ (0 < dimension params -> Exn.outcome (dense_sizing CoordinateType b params) = inr tt))
  /\ (Exn.throws_setup_error (Exn.outcome (sparse_sizing CoordinateType IndexType b params))
      = (feature_hashing_dimension params <=? 0)
      /\ (feature_hashing_dimension params <= 0 ->
          Exn.outcome (sparse_sizing CoordinateType IndexType b params)
          = inl (LSHNNTableSetupError Msg.sparse_cp_dimension_unset))
      /\ (0 < feature_hashing_dimension params ->
          Exn.outcome (sparse_sizing CoordinateType IndexType b params) = inr tt)).
Proof.
  intros Hf.
  rewrite (dense_sizing_cross_polytope b params Hf),
    (sparse_sizing_cross_polytope b params Hf).
  split.
  - destruct (Z.leb_spec (dimension params) 0) as [Hle | Hgt].
    + repeat split; intros; try reflexivity; lia.
    + destruct (call_compute_k_parameters_for_bits_frame
                  (dimension params) b params) as [Hret _].
      rewrite Hret. repeat split; intros; try reflexivity; lia.
  - destruct (Z.leb_spec (feature_hashing_dimension params) 0) as [Hle | Hgt].
    + repeat split; intros; try reflexivity; lia.
    + destruct (call_compute_k_parameters_for_bits_frame
                  (feature_hashing_dimension params) b params) as [Hret _].
      rewrite Hret. repeat split; intros; try reflexivity; lia.
Qed.

Lemma dense_sizing_frame b params :
  sizing_frame params (dense_sizing CoordinateType b params).
Proof.
  unfold sizing_frame. destruct (lsh_family params) eqn:Hf.
  - rewrite (dense_sizing_unknown b params Hf).
    repeat split; try discriminate; reflexivity.
  - rewrite (dense_sizing_hyperplane b params Hf).
    repeat split; try discriminate.
  - rewrite (dense_sizing_cross_polytope b params Hf).
    destruct (dimension params <=? 0).
    + repeat split; try discriminate; reflexivity.
    + destruct (call_compute_k_parameters_for_bits_frame
                  (dimension params) b params) as [Hret Hframe].
      split; [discriminate | split].
      * intros _ _. exact Hframe.
      * intros e He. rewrite Hret in He. discriminate He.
Qed.

Lemma sparse_sizing_frame b params :
  sizing_frame params (sparse_sizing CoordinateType IndexType b params).
Proof.
  unfold sizing_frame. destruct (lsh_family params) eqn:Hf.
  - rewrite (sparse_sizing_unknown b params Hf).
    repeat split; try discriminate; reflexivity.
  - rewrite (sparse_sizing_hyperplane b params Hf).
    repeat split; try discriminate.
  - rewrite (sparse_sizing_cross_polytope b params Hf).
    destruct (feature_hashing_dimension params <=? 0).
    + repeat split; try discriminate; reflexivity.
    + destruct (call_compute_k_parameters_for_bits_frame
                  (feature_hashing_dimension params) b params) as [Hret Hframe].
      split; [discriminate | split].
      * intros _ _. exact Hframe.
      * intros e He. rewrite Hret in He. discriminate He.
Qed.

(** C9. A call of the sizing rule that returns changes [k] only for the
    hyperplane family (where it always returns), and [k] and
    [last_cp_dimension] only for the cross-polytope family; [dimension], [l],
    [distance_function], [lsh_family], [num_rotations],
    [feature_hashing_dimension] and [seed] keep their values.  A call that
    throws leaves the whole record as it was.  This holds for dense and for
    sparse points. *)
Theorem sizing_rule_frame b params :
  ((lsh_family params = Hyperplane ->
      Exn.outcome (dense_sizing CoordinateType b params) = inr tt
      /\ same_except_k params (Exn.final (dense_sizing CoordinateType b params)))
   /\ (lsh_family params = CrossPolytope ->
       Exn.outcome (dense_sizing CoordinateType b params) = inr tt ->
       same_except_k_and_last_cp_dimension params
         (Exn.final (dense_sizing CoordinateType b params)))
   /\ (forall e, Exn.outcome (dense_sizing CoordinateType b params) = inl e ->
                 Exn.final (dense_sizing CoordinateType b params) = params))
  /\ ((lsh_family params = Hyperplane ->
         Exn.outcome (sparse_sizing CoordinateType IndexType b params) = inr tt
         /\ same_except_k params (Exn.final (sparse_sizing CoordinateType IndexType b params)))
      /\ (lsh_family params = CrossPolytope ->
          Exn.outcome (sparse_sizing CoordinateType IndexType b params) = inr tt ->
          same_except_k_and_last_cp_dimension params
            (Exn.final (sparse_sizing CoordinateType IndexType b params)))
      /\ (forall e, Exn.outcome (sparse_sizing CoordinateType IndexType b params) = inl e ->
                    Exn.final (sparse_sizing CoordinateType IndexType b params) = params)).
Proof.
  split; [apply dense_sizing_frame | apply sparse_sizing_frame].
Qed.

End SizingProofs.

(** ** Construction *)

Section ConstructionProofs.

Context `{Collaborators}.

Lemma setup_error_of_injective (f g : InvalidField) :
  setup_error_of f = setup_error_of g -> f = g.
Proof.
  destruct f, g; intros Heq; try reflexivity; discriminate Heq.
Qed.

Section AnyPointType.

Context {PointType : Type}.
Implicit Types (points : list PointType) (params : LSHConstructionParameters)
  (log : list (Allocation PointType)).

(** [construction_helper] always returns; its index and its allocations. *)
Lemma construction_helper_returns distance points params lsh log :
  exists w rest,
    construction_helper distance points params lsh log = (inr w, log ++ rest)
    /\ lsh_ w = lsh
    /\ num_probes_ w = get_l lsh
    /\ max_num_candidates_ w = kNoMaxNumCandidates
    /\ hash_table_factory_ w = {| table_size := size_t_mul 2 (size points) |}
    /\ composite_hash_table_ w
       = {| composite_l := l params;
            composite_factory := hash_table_factory_ w |}
    /\ (exists before after,
           rest = before
                  ++ [alloc_Factory (hash_table_factory_ w);
                      alloc_CompositeTable (composite_hash_table_ w)]
                  ++ after).
Proof.
  unfold construction_helper, construct_data_storage, new_. exn_unfold.
  eexists. eexists. split.
  - repeat rewrite <- app_assoc. cbn [app]. reflexivity.
  - cbn. repeat split.
    eexists [_]. eexists. cbn [app]. reflexivity.
Qed.

(** Allocating the hash function and handing it to [construction_helper]. *)
Lemma new_LSH_then_helper_returns distance points params h log :
  LSHFunction_ctor h = None ->
  exists w rest,
    (lsh <- new_LSH h ;; construction_helper distance points params lsh) log
    = (inr w, log ++ alloc_LSH h :: rest)
    /\ lsh_ w = h
    /\ num_probes_ w = get_l h
    /\ max_num_candidates_ w = kNoMaxNumCandidates.
Proof.
  intros Hctor.
  destruct (construction_helper_returns distance points params h
              (log ++ [alloc_LSH h]))
    as (w & rest & Hrun & Hlsh & Hprobes & Hmax & _).
  exists w, rest. split; [| auto].
  unfold new_LSH, new_. exn_unfold. rewrite Hctor, Hrun.
  rewrite <- app_assoc. reflexivity.
Qed.

Lemma new_LSH_then_helper_throws distance points params h log e :
  LSHFunction_ctor h = Some e ->
  (lsh <- new_LSH h ;; construction_helper distance points params lsh) log
  = (inl e, log ++ [alloc_LSH h]).
Proof.
  intros Hctor. unfold new_LSH, new_. exn_unfold. rewrite Hctor. reflexivity.
Qed.

Context `{PointTypeTraitsInternal PointType}.

(** The validation prefix of [construct_table] refines the validator of the
    specification. *)
Lemma construct_table_rejects points params log field :
  spec_first_invalid_field params = Some field ->
  construct_table points params log = (inl (setup_error_of field), log).
Proof.
  unfold spec_first_invalid_field, construct_table. exn_unfold.
  destruct (dimension params <? 1); [intros [= <-]; reflexivity |].
  destruct (k params <? 1); [intros [= <-]; reflexivity |].
  destruct (l params <? 1); [intros [= <-]; reflexivity |].
  destruct (distance_function params); cbn; [intros [= <-]; reflexivity |].
  destruct (lsh_family params); cbn; try discriminate.
  destruct (num_rotations params <? 0); [intros [= <-]; reflexivity |].
  destruct (Z.ltb_spec (last_cp_dimension params) 1) as [Hlt | Hge],
    (Z.leb_spec (last_cp_dimension params) 0) as [Hle | Hgt];
    try lia; [intros [= <-]; reflexivity | discriminate].
Qed.

Lemma construct_table_accepts points params log :
  spec_first_invalid_field params = None ->
  construct_table points params log
  = match lsh_family params with
    | Hyperplane =>
        (lsh <- new_LSH (HPHash (dimension params) (k params) (l params)
                           (Z.lxor (seed params) 93384688)) ;;
         construction_helper CosineDistance points params lsh) log
    | CrossPolytope =>
        (lsh <- construct_cp_hash params ;;
         construction_helper CosineDistance points params lsh) log
    | LSHFamily_Unknown => (inl (LSHNNTableSetupError Msg.unknown_family), log)
    end.
Proof.
  unfold spec_first_invalid_field, construct_table.
  unfold Exn.when, Exn.throw, Exn.ret.
  destruct (dimension params <? 1); [discriminate |].
  destruct (k params <? 1); [discriminate |].
  destruct (l params <? 1); [discriminate |].
  destruct (distance_function params); [discriminate |].
  destruct (lsh_family params); cbn; try reflexivity.
  destruct (num_rotations params <? 0); [discriminate |].
  destruct (Z.ltb_spec (last_cp_dimension params) 1) as [Hlt | Hge],
    (Z.leb_spec (last_cp_dimension params) 0) as [Hle | Hgt];
    try lia; [discriminate | reflexivity].
Qed.

(** C1. [construct_table] refines the validator of the specification: when
    [field] is the first invalid field in the precedence order dimension, k,
    l, distance function and, for the cross-polytope family, num_rotations
    and last_cp_dimension, it throws the setup error of [field] with the
    allocation log as it found it, for every point type and every point set.
    With [dimension = 0] that is the error of the dimension, whatever the
    other fields.  Different fields have different errors. *)
Theorem construct_table_fails_fast points params log :
  (forall field,
      spec_first_invalid_field params = Some field ->
      construct_table points params log = (inl (setup_error_of field), log)
      /\ is_setup_error (setup_error_of field) = true)
  /\ (dimension params = 0 ->
      construct_table points params log
      = (inl (LSHNNTableSetupError Msg.bad_dimension), log))
  /\ (forall f g, setup_error_of f = setup_error_of g -> f = g).
Proof.
  split; [| split].
  - intros field Hfield. split; [| reflexivity].
    apply construct_table_rejects, Hfield.
  - intros Hdim.
    apply (construct_table_rejects points params log (field := invalid_dimension)).
    unfold spec_first_invalid_field. rewrite Hdim. reflexivity.
  - apply setup_error_of_injective.
Qed.

(** C8. [construction_helper] returns an index whose hash-table factory
    makes tables of size [2 * |points|] and whose composite hash table is
    made of [l = params.l] tables of that factory; the factory and, right
    after it, the composite table are among the objects it allocates.  The
    product is computed in [size_t]; a point vector has fewer than [2^63]
    elements. *)
Theorem construction_helper_sizes_tables distance points params lsh log :
  2 * size points < size_t_modulus ->
  exists w rest,
    construction_helper distance points params lsh log = (inr w, log ++ rest)
    /\ table_size (hash_table_factory_ w) = 2 * size points
    /\ composite_l (composite_hash_table_ w) = l params
    /\ composite_factory (composite_hash_table_ w) = hash_table_factory_ w
    /\ (exists before after,
           rest = before
                  ++ [alloc_Factory (hash_table_factory_ w);
                      alloc_CompositeTable (composite_hash_table_ w)]
                  ++ after).
Proof.
  intros Hsize.
  destruct (construction_helper_returns distance points params lsh log)
    as (w & rest & Hrun & _ & _ & _ & Hfactory & Hcomposite & Hrest).
  exists w, rest. split; [exact Hrun |].
  rewrite Hcomposite, Hfactory.
  cbn [table_size composite_l composite_factory]. repeat split.
  - unfold size_t_mul. apply Z.mod_small.
    unfold size in *. lia.
  - rewrite Hcomposite, Hfactory in Hrest. exact Hrest.
Qed.

End AnyPointType.

Section DenseAndSparse.

Variables CoordinateType IndexType : Type.

Implicit Types (dense_points : list (DenseVector CoordinateType))
  (sparse_points : list (SparseVector CoordinateType IndexType))
  (params : LSHConstructionParameters).

Lemma dense_hash_of_seed params :
  get_seed (dense_hash_of params) = Z.lxor (seed params) 93384688.
Proof. unfold dense_hash_of. destruct (lsh_family params); reflexivity. Qed.

Lemma sparse_hash_of_seed params :
  get_seed (sparse_hash_of params) = Z.lxor (seed params) 93384688.
Proof. unfold sparse_hash_of. destruct (lsh_family params); reflexivity. Qed.

Lemma dense_hash_of_l params : get_l (dense_hash_of params) = l params.
Proof. unfold dense_hash_of. destruct (lsh_family params); reflexivity. Qed.

Lemma sparse_hash_of_l params : get_l (sparse_hash_of params) = l params.
Proof. unfold sparse_hash_of. destruct (lsh_family params); reflexivity. Qed.

Lemma dense_hash_ctor_returns params :
  LSHFunction_ctor (dense_hash_of params) = None.
Proof. unfold dense_hash_of. destruct (lsh_family params); reflexivity. Qed.

(** Past validation, a known family leads to the hash function above. *)
Lemma construct_dense_table_accepts dense_points params log :
  spec_first_invalid_field params = None ->
  lsh_family params <> LSHFamily_Unknown ->
  construct_table dense_points params log
  = (lsh <- new_LSH (dense_hash_of params) ;;
     construction_helper CosineDistanceDense dense_points params lsh) log.
Proof.
  intros Hvalid Hfamily. rewrite (construct_table_accepts _ _ _ Hvalid).
  unfold dense_hash_of. destruct (lsh_family params); [congruence | |]; reflexivity.
Qed.

Lemma construct_sparse_table_accepts sparse_points params log :
  spec_first_invalid_field params = None ->
  lsh_family params <> LSHFamily_Unknown ->
  construct_table sparse_points params log
  = (lsh <- new_LSH (sparse_hash_of params) ;;
     construction_helper CosineDistanceSparse sparse_points params lsh) log.
Proof.
  intros Hvalid Hfamily. rewrite (construct_table_accepts _ _ _ Hvalid).
  unfold sparse_hash_of. destruct (lsh_family params); [congruence | |]; reflexivity.
Qed.

Lemma spec_valid_common_passes params :
  spec_valid_common params = true ->
  1 <= dimension params /\ 1 <= k params /\ 1 <= l params
  /\ distance_function params = NegativeInnerProduct.
Proof.
  unfold spec_valid_common. intros Hvalid.
  apply andb_prop in Hvalid as [Hvalid Hdist].
  apply andb_prop in Hvalid as [Hvalid Hl].
  apply andb_prop in Hvalid as [Hdim Hk].
  apply Z.leb_le in Hdim, Hk, Hl.
  destruct (distance_function params); [discriminate Hdist | auto].
Qed.

Lemma spec_valid_dense_passes params :
  spec_valid_dense params = true ->
  spec_first_invalid_field params = None
  /\ lsh_family params <> LSHFamily_Unknown.
Proof.
  unfold spec_valid_dense. intros Hvalid.
  apply andb_prop in Hvalid as [Hcommon Hfamily].
  apply spec_valid_common_passes in Hcommon as (Hdim & Hk & Hl & Hdist).
  unfold spec_first_invalid_field. rewrite Hdist.
  repeat (case_test; [lia |]).
  destruct (lsh_family params); [discriminate Hfamily | |];
    (split; [| discriminate]); [reflexivity |].
  apply andb_prop in Hfamily as [Hrot Hlast].
  apply Z.leb_le in Hrot, Hlast.
  repeat (case_test; [lia |]). reflexivity.
Qed.

Lemma spec_valid_sparse_passes params :
  spec_valid_sparse params = true ->
  spec_first_invalid_field params = None
  /\ lsh_family params <> LSHFamily_Unknown
  /\ LSHFunction_ctor (sparse_hash_of params) = None.
Proof.
  unfold spec_valid_sparse. intros Hvalid.
  apply andb_prop in Hvalid as [Hcommon Hfamily].
  apply spec_valid_common_passes in Hcommon as (Hdim & Hk & Hl & Hdist).
  unfold spec_first_invalid_field, sparse_hash_of. rewrite Hdist.
  repeat (case_test; [lia |]).
  destruct (lsh_family params); [discriminate Hfamily | |];
    (split; [| split; [discriminate |]]); try reflexivity.
  - apply andb_prop in Hfamily as [Hfamily _].
    apply andb_prop in Hfamily as [Hrot Hlast].
    apply Z.leb_le in Hrot, Hlast.
    repeat (case_test; [lia |]). reflexivity.
  - apply andb_prop in Hfamily as [_ Hfhd]. apply Z.leb_le in Hfhd.
    cbn. case_test; [lia | reflexivity].
Qed.

(** C2. On sparse points with the cross-polytope family and
    [feature_hashing_dimension] unset ([<= 0]), [construct_table] throws a
    setup error and returns no index, for every point set and whatever the
    other fields are, so with [num_rotations = 2] and [last_cp_dimension = 4].
    When the validator accepts the record, the error is the one of the hash
    constructor, thrown after the hash object was allocated and before
    anything else is. *)
Theorem sparse_cross_polytope_needs_feature_hashing sparse_points params log :
  lsh_family params = CrossPolytope ->
  feature_hashing_dimension params <= 0 ->
  Exn.throws_setup_error
    (Exn.outcome (construct_table sparse_points params log)) = true
  /\ (spec_first_invalid_field params = None ->
      construct_table sparse_points params log
      = (inl (LSHNNTableSetupError cp_hash_feature_hashing_message),
         log ++ [alloc_LSH (sparse_hash_of params)])).
Proof.
  intros Hfamily Hfhd.
  assert (Hctor : LSHFunction_ctor (sparse_hash_of params)
                  = Some (LSHNNTableSetupError cp_hash_feature_hashing_message)).
  { unfold sparse_hash_of. rewrite Hfamily. cbn. case_test; [reflexivity | lia]. }
  assert (Hknown : lsh_family params <> LSHFamily_Unknown) by congruence.
  destruct (spec_first_invalid_field params) as [field |] eqn:Hvalid.
  - split; [| discriminate].
    rewrite (construct_table_rejects _ _ _ Hvalid). reflexivity.
  - rewrite (construct_sparse_table_accepts _ _ _ Hvalid Hknown).
    rewrite (new_LSH_then_helper_throws _ _ _ _ _ Hctor).
    split; [reflexivity | intros _; reflexivity].
Qed.

(** C3. For valid parameters (dimension, k and l at least 1, the negative
    inner product, and the fields of the family: a known family, for the
    cross-polytope family [num_rotations >= 0] and [last_cp_dimension >= 1],
    and for sparse points also the feature hashing dimension),
    [construct_table] returns an index, for every point set, dense or sparse;
    its [num_probes_] is [l] and its [max_num_candidates_] is
    [kNoMaxNumCandidates]. *)
Theorem valid_parameters_build_an_index dense_points sparse_points params :
  (spec_valid_dense params = true ->
   forall log, exists w log',
     construct_table dense_points params log = (inr w, log')
     /\ num_probes_ w = l params
     /\ max_num_candidates_ w = kNoMaxNumCandidates)
  /\ (spec_valid_sparse params = true ->
      forall log, exists w log',
        construct_table sparse_points params log = (inr w, log')
        /\ num_probes_ w = l params
        /\ max_num_candidates_ w = kNoMaxNumCandidates).
Proof.
  split; intros Hvalid log.
  - apply spec_valid_dense_passes in Hvalid as [Hvalid Hknown].
    rewrite (construct_dense_table_accepts _ _ _ Hvalid Hknown).
    destruct (new_LSH_then_helper_returns CosineDistanceDense dense_points
                params _ log (dense_hash_ctor_returns params))
      as (w & rest & Hrun & _ & Hprobes & Hmax).
    exists w. eexists. split; [exact Hrun |].
    rewrite Hprobes, dense_hash_of_l. auto.
  - apply spec_valid_sparse_passes in Hvalid as (Hvalid & Hknown & Hctor).
    rewrite (construct_sparse_table_accepts _ _ _ Hvalid Hknown).
    destruct (new_LSH_then_helper_returns CosineDistanceSparse sparse_points
                params _ log Hctor)
      as (w & rest & Hrun & _ & Hprobes & Hmax).
    exists w. eexists. split; [exact Hrun |].
    rewrite Hprobes, sparse_hash_of_l. auto.
Qed.

(** C7. Whenever [construct_table] gets past validation with the hyperplane
    or the cross-polytope family, on dense or on sparse points, the first
    object it allocates is the hash function, constructed with seed
    [params.seed XOR 93384688], and the hash function of the index it returns
    has that seed. *)
Theorem hash_seed_is_seed_xor_constant dense_points sparse_points params :
  spec_first_invalid_field params = None ->
  lsh_family params = Hyperplane \/ lsh_family params = CrossPolytope ->
  forall dense_log sparse_log,
    builds_hash_with_seed (construct_table dense_points params) dense_log
      (Z.lxor (seed params) 93384688)
    /\ builds_hash_with_seed (construct_table sparse_points params) sparse_log
         (Z.lxor (seed params) 93384688).
Proof.
  intros Hvalid Hfamily dense_log sparse_log.
  assert (Hknown : lsh_family params <> LSHFamily_Unknown)
    by (destruct Hfamily; congruence).
  unfold builds_hash_with_seed. split.
  - rewrite (construct_dense_table_accepts _ _ _ Hvalid Hknown).
    destruct (new_LSH_then_helper_returns CosineDistanceDense dense_points
                params _ dense_log (dense_hash_ctor_returns params))
      as (w & rest & Hrun & Hlsh & _).
    rewrite Hrun. split.
    + exists (dense_hash_of params), rest.
      split; [reflexivity | apply dense_hash_of_seed].
    + intros w' [= <-]. rewrite Hlsh. apply dense_hash_of_seed.
  - rewrite (construct_sparse_table_accepts _ _ _ Hvalid Hknown).
    destruct (LSHFunction_ctor (sparse_hash_of params)) as [e |] eqn:Hctor.
    + rewrite (new_LSH_then_helper_throws _ _ _ _ _ Hctor). split.
      * exists (sparse_hash_of params), [].
        split; [reflexivity | apply sparse_hash_of_seed].
      * intros w' Hw'. discriminate Hw'.
    + destruct (new_LSH_then_helper_returns CosineDistanceSparse sparse_points
                  params _ sparse_log Hctor)
        as (w & rest & Hrun & Hlsh & _).
      rewrite Hrun. split.
      * exists (sparse_hash_of params), rest.
        split; [reflexivity | apply sparse_hash_of_seed].
      * intros w' [= <-]. rewrite Hlsh. apply sparse_hash_of_seed.
Qed.

End DenseAndSparse.

End ConstructionProofs.

(** ** The theorems at concrete inputs *)

Section Witnesses.

#[local] Existing Instance example_collaborators.

Lemma set_num_probes_contract_witness :
  (0 <= 0
   /\ set_num_probes 0 example_index
      = (inl (LSHNearestNeighborTableError Msg.num_probes), example_index))
  /\ (1 <= 25
      /\ set_num_probes 25 example_index
         = (inr tt, with_num_probes 25 example_index)).
Proof.
  split; split; try lia.
  - apply (proj1 (set_num_probes_contract example_index 0)). lia.
  - apply (proj1 (proj2 (set_num_probes_contract example_index 25))). lia.
Defined.

Lemma knobs_read_back_witness :
  Exn.outcome (set_num_probes 25 example_index) = inr tt
  /\ (set_num_probes 25 ;;; get_num_probes) example_index
     = (inr 25, with_num_probes 25 example_index).
Proof.
  split; [reflexivity |].
  apply (proj1 (proj2 (knobs_read_back example_index)) 25). reflexivity.
Defined.

Lemma hyperplane_k_is_number_of_hash_bits_witness :
  lsh_family (example_parameters Hyperplane) = Hyperplane
  /\ k (Exn.final (compute_number_of_hash_functions (DenseVector Z) 16
                     (example_parameters Hyperplane))) = 16
  /\ k (Exn.final (compute_number_of_hash_functions (SparseVector Z nat) 16
                     (example_parameters Hyperplane))) = 16.
Proof.
  split; [reflexivity |].
  destruct (hyperplane_k_is_number_of_hash_bits Z nat 16
              (example_parameters Hyperplane) eq_refl)
    as [[_ Hdense] [_ Hsparse]].
  split; assumption.
Defined.

Lemma cross_polytope_sizing_needs_dimension_witness :
  lsh_family (example_parameters CrossPolytope) = CrossPolytope
  /\ Exn.outcome (compute_number_of_hash_functions (DenseVector Z) 32
                    (example_parameters CrossPolytope)) = inr tt
  /\ Exn.outcome (compute_number_of_hash_functions (SparseVector Z nat) 32
                    (example_parameters CrossPolytope))
     = inl (LSHNNTableSetupError Msg.sparse_cp_dimension_unset).
Proof.
  split; [reflexivity |].
  destruct (cross_polytope_sizing_needs_dimension Z nat 32
              (example_parameters CrossPolytope) eq_refl)
    as [(_ & _ & Hdense) (_ & Hsparse & _)].
  split; [apply Hdense | apply Hsparse]; cbn; lia.
Defined.

Lemma sizing_rule_frame_witness :
  lsh_family (example_parameters Hyperplane) = Hyperplane
  /\ same_except_k (example_parameters Hyperplane)
       (Exn.final (compute_number_of_hash_functions (DenseVector Z) 16
                     (example_parameters Hyperplane))).
Proof.
  split; [reflexivity |].
  apply (proj1 (proj1 (sizing_rule_frame Z nat 16
                         (example_parameters Hyperplane)))).
  reflexivity.
Defined.

Lemma construct_table_fails_fast_witness :
  spec_first_invalid_field example_parameters_without_dimension
  = Some invalid_dimension
  /\ construct_table example_dense_points
       example_parameters_without_dimension []
     = (inl (LSHNNTableSetupError Msg.bad_dimension), []).
Proof.
  split; [reflexivity |].
  apply (proj1 (construct_table_fails_fast example_dense_points
                  example_parameters_without_dimension [])
           invalid_dimension).
  reflexivity.
Defined.

Lemma construction_helper_sizes_tables_witness :
  2 * size example_dense_points < size_t_modulus
  /\ exists w rest,
       construction_helper CosineDistanceDense example_dense_points
         (example_parameters Hyperplane) (lsh_ example_index) []
       = (inr w, [] ++ rest)
       /\ table_size (hash_table_factory_ w) = 2 * size example_dense_points
       /\ composite_l (composite_hash_table_ w) = 10.
Proof.
  assert (Hsize : 2 * size example_dense_points < size_t_modulus)
    by reflexivity.
  split; [exact Hsize |].
  destruct (construction_helper_sizes_tables CosineDistanceDense
              example_dense_points (example_parameters Hyperplane)
              (lsh_ example_index) [] Hsize)
    as (w & rest & Hrun & Hfactory & Hcomposite & _).
  exists w, rest. auto.
Defined.

Lemma sparse_cross_polytope_needs_feature_hashing_witness :
  (lsh_family (example_parameters CrossPolytope) = CrossPolytope
   /\ num_rotations (example_parameters CrossPolytope) = 2
   /\ last_cp_dimension (example_parameters CrossPolytope) = 4
   /\ feature_hashing_dimension (example_parameters CrossPolytope) <= 0)
  /\ Exn.throws_setup_error
       (Exn.outcome (construct_table example_sparse_points
                       (example_parameters CrossPolytope) [])) = true.
Proof.
  split; [repeat split; cbn; lia |].
  apply (sparse_cross_polytope_needs_feature_hashing example_sparse_points
           (example_parameters CrossPolytope) []); [reflexivity | cbn; lia].
Defined.

Lemma valid_parameters_build_an_index_witness :
  (spec_valid_dense (example_parameters CrossPolytope) = true
   /\ exists w log',
        construct_table example_dense_points
          (example_parameters CrossPolytope) [] = (inr w, log')
        /\ num_probes_ w = 10 /\ max_num_candidates_ w = -1)
  /\ (spec_valid_sparse example_sparse_parameters = true
      /\ exists w log',
           construct_table example_sparse_points example_sparse_parameters []
           = (inr w, log')
           /\ num_probes_ w = 10 /\ max_num_candidates_ w = -1).
Proof.
  split; (split; [reflexivity |]).
  - exact (proj1 (valid_parameters_build_an_index example_dense_points
                    example_sparse_points (example_parameters CrossPolytope))
             eq_refl []).
  - exact (proj2 (valid_parameters_build_an_index example_dense_points
                    example_sparse_points example_sparse_parameters)
             eq_refl []).
Defined.

Lemma hash_seed_is_seed_xor_constant_witness :
  spec_first_invalid_field (example_parameters CrossPolytope) = None
  /\ builds_hash_with_seed
       (construct_table example_dense_points (example_parameters CrossPolytope))
       [] 502905794
  /\ builds_hash_with_seed
       (construct_table example_sparse_points (example_parameters CrossPolytope))
       [] 502905794.
Proof.
  split; [reflexivity |].
  exact (hash_seed_is_seed_xor_constant example_dense_points
           example_sparse_points (example_parameters CrossPolytope)
           eq_refl (or_intror eq_refl) [] []).
Defined.

End Witnesses.

(** * Further properties of the code *)

(** ** What [construct_table] returns *)

Section BuiltIndex.

Context `{Collaborators}.

Section AnyPointType.

Context {PointType : Type}.
Implicit Types (points : list PointType) (params : LSHConstructionParameters)
  (log : list (Allocation PointType)) (w : LSHNNTableWrapper PointType).

(** The run of [construction_helper], in full. *)
Lemma construction_helper_run distance points params lsh log :
  exists w,
    construction_helper distance points params lsh log
    = (inr w, log ++ tl (allocations_of w))
    /\ lsh_ w = lsh
    /\ index_is_wired w
    /\ storage_points (data_storage_ w) = points
    /\ table_size (hash_table_factory_ w) = size_t_mul 2 (size points)
    /\ composite_l (composite_hash_table_ w) = l params
    /\ nn_distance (nn_query_ w) = distance
    /\ num_probes_ w = get_l lsh
    /\ max_num_candidates_ w = kNoMaxNumCandidates.
Proof.
  unfold construction_helper, construct_data_storage, new_. exn_unfold.
  eexists. split.
  - repeat rewrite <- app_assoc. cbn [app].
    apply f_equal2; [reflexivity |]. reflexivity.
  - cbn. unfold index_is_wired. cbn. repeat split.
Qed.

Lemma spec_valid_dense_complete params :
  spec_first_invalid_field params = None ->
  lsh_family params <> LSHFamily_Unknown ->
  spec_valid_dense params = true.
Proof.
  unfold spec_first_invalid_field, spec_valid_dense, spec_valid_common.
  destruct (Z.ltb_spec (dimension params) 1); [discriminate |].
  destruct (Z.ltb_spec (k params) 1); [discriminate |].
  destruct (Z.ltb_spec (l params) 1); [discriminate |].
  destruct (distance_function params); [discriminate |].
  intros Hfield Hknown.
  replace (1 <=? dimension params) with true by (symmetry; apply Z.leb_le; lia).
  replace (1 <=? k params) with true by (symmetry; apply Z.leb_le; lia).
  replace (1 <=? l params) with true by (symmetry; apply Z.leb_le; lia).
  cbn. destruct (lsh_family params); [congruence | reflexivity |].
  destruct (Z.ltb_spec (num_rotations params) 0); [discriminate |].
  destruct (Z.ltb_spec (last_cp_dimension params) 1); [discriminate |].
  apply andb_true_intro. split; apply Z.leb_le; lia.
Qed.

Context `{PointTypeTraitsInternal PointType}.

(** X1. With a family that is neither hyperplane nor cross-polytope,
    [construct_table] always throws a setup error and allocates nothing; when
    dimension, k, l and the distance function are valid, it is the error of
    the unknown family, which is none of the errors of the six fields. *)
Theorem construct_table_unknown_family points params log :
  lsh_family params = LSHFamily_Unknown ->
  Exn.throws_setup_error (Exn.outcome (construct_table points params log))
  = true
  /\ Exn.final (construct_table points params log) = log
  /\ (spec_valid_common params = true ->
      construct_table points params log
      = (inl (LSHNNTableSetupError Msg.unknown_family), log))
  /\ (forall field,
         setup_error_of field <> LSHNNTableSetupError Msg.unknown_family).
Proof.
  intros Hfamily.
  assert (Hpass : spec_first_invalid_field params = None ->
                  construct_table points params log
                  = (inl (LSHNNTableSetupError Msg.unknown_family), log)).
  { intros Hvalid. rewrite (construct_table_accepts _ _ _ Hvalid), Hfamily.
    reflexivity. }
  repeat split.
  - destruct (spec_first_invalid_field params) as [field |] eqn:Hvalid.
    + rewrite (construct_table_rejects _ _ _ Hvalid). reflexivity.
    + rewrite (Hpass eq_refl). reflexivity.
  - destruct (spec_first_invalid_field params) as [field |] eqn:Hvalid.
    + rewrite (construct_table_rejects _ _ _ Hvalid). reflexivity.
    + rewrite (Hpass eq_refl). reflexivity.
  - intros Hcommon. apply Hpass.
    apply spec_valid_common_passes in Hcommon as (Hdim & Hk & Hl & Hdist).
    unfold spec_first_invalid_field. rewrite Hdist, Hfamily.
    repeat (case_test; [lia |]). reflexivity.
  - intros field. destruct field; discriminate.
Qed.

Lemma construct_table_returns_inv points params log w :
  Exn.outcome (construct_table points params log) = inr w ->
  spec_first_invalid_field params = None
  /\ lsh_family params <> LSHFamily_Unknown.
Proof.
  intros Hret.
  destruct (spec_first_invalid_field params) as [field |] eqn:Hvalid.
  - rewrite (construct_table_rejects _ _ _ Hvalid) in Hret. discriminate Hret.
  - split; [reflexivity |]. intros Hfamily.
    rewrite (construct_table_accepts _ _ _ Hvalid), Hfamily in Hret.
    discriminate Hret.
Qed.

(** X2. Whatever the point type, an index is only ever returned for
    validated parameters: dimension, k and l at least 1, the negative inner
    product, a known family and, for the cross-polytope family, a
    non-negative number of rotations and a last dimension of at least 1. *)
Theorem construct_table_returns_only_for_valid_parameters points params log w :
  Exn.outcome (construct_table points params log) = inr w ->
  spec_valid_dense params = true
  /\ 1 <= dimension params /\ 1 <= k params /\ 1 <= l params
  /\ distance_function params = NegativeInnerProduct
  /\ (lsh_family params = Hyperplane
      \/ (lsh_family params = CrossPolytope
          /\ 0 <= num_rotations params /\ 1 <= last_cp_dimension params)).
Proof.
  intros Hret.
  destruct (construct_table_returns_inv _ _ _ Hret) as [Hvalid Hknown].
  pose proof (spec_valid_dense_complete _ Hvalid Hknown) as Hdense.
  split; [exact Hdense |].
  unfold spec_valid_dense in Hdense.
  apply andb_prop in Hdense as [Hcommon Hfamily].
  apply spec_valid_common_passes in Hcommon as (Hdim & Hk & Hl & Hdist).
  repeat (split; [assumption |]).
  destruct (lsh_family params); [discriminate Hfamily | left; reflexivity |].
  right. apply andb_prop in Hfamily as [Hrot Hlast].
  apply Z.leb_le in Hrot, Hlast. auto.
Qed.

(** Past validation, a returned index comes out of [construction_helper]. *)
Lemma construct_table_returns_from_helper points params log w :
  Exn.outcome (construct_table points params log) = inr w ->
  exists lsh log1,
    construction_helper CosineDistance points params lsh log1
    = construct_table points params log.
Proof.
  intros Hret.
  destruct (construct_table_returns_inv _ _ _ Hret) as [Hvalid Hknown].
  rewrite (construct_table_accepts _ _ _ Hvalid) in Hret |- *.
  unfold Exn.bind in Hret |- *.
  destruct (lsh_family params); [congruence | |].
  - destruct (new_LSH _ log) as [[e | lsh] log1]; [discriminate Hret |].
    exists lsh, log1. reflexivity.
  - destruct (construct_cp_hash params log) as [[e | lsh] log1];
      [discriminate Hret |].
    exists lsh, log1. reflexivity.
Qed.

(** X3. Whatever the point type, the objects of a returned index are linked
    to each other: the LSH table refers to the hash function, the composite
    table and the data storage of the index, the composite table to its
    factory, the table query to the LSH table, the nearest-neighbour query to
    the table query and the data storage.  The data storage holds the points
    given, in their order, the factory makes tables of size [2 * |points|]
    (computed in [size_t]), the composite table is made of [l] tables, the
    distance is the one of the point type and no candidate cap is set. *)
Theorem construct_table_wires_the_index points params log w :
  Exn.outcome (construct_table points params log) = inr w ->
  index_is_wired w
  /\ storage_points (data_storage_ w) = points
  /\ table_size (hash_table_factory_ w) = size_t_mul 2 (size points)
  /\ composite_l (composite_hash_table_ w) = l params
  /\ nn_distance (nn_query_ w) = CosineDistance
  /\ num_probes_ w = get_l (lsh_ w)
  /\ max_num_candidates_ w = kNoMaxNumCandidates.
Proof.
  intros Hret.
  destruct (construct_table_returns_from_helper _ _ _ Hret)
    as (lsh & log1 & Hhelper).
  destruct (construction_helper_run CosineDistance points params lsh log1)
    as (w0 & Hrun & Hlsh & Hwired & Hpoints & Hsize & Hl & Hdist & Hprobes
        & Hmax).
  rewrite <- Hhelper, Hrun in Hret. injection Hret as <-.
  rewrite Hprobes, Hlsh. auto 10.
Qed.


End AnyPointType.

Lemma new_LSH_then_helper_run {PointType} distance
  (points : list PointType) params h log :
  LSHFunction_ctor h = None ->
  exists w,
    (lsh <- new_LSH h ;; construction_helper distance points params lsh) log
    = (inr w, log ++ allocations_of w)
    /\ lsh_ w = h
    /\ composite_l (composite_hash_table_ w) = l params
    /\ nn_distance (nn_query_ w) = distance
    /\ num_probes_ w = get_l h.
Proof.
  intros Hctor.
  destruct (construction_helper_run distance points params h
              (log ++ [alloc_LSH h]))
    as (w & Hrun & Hlsh & _ & _ & _ & Hl & Hdist & Hprobes & _).
  exists w. split; [| auto].
  unfold new_LSH, new_. exn_unfold. rewrite Hctor, Hrun.
  rewrite <- app_assoc. unfold allocations_of. cbn [tl app].
  rewrite Hlsh. reflexivity.
Qed.

Lemma lxor_constant_involutive s : Z.lxor (Z.lxor s 93384688) 93384688 = s.
Proof. rewrite Z.lxor_assoc, Z.lxor_nilpotent. apply Z.lxor_0_r. Qed.

Lemma lxor_constant_moves s : Z.lxor s 93384688 <> s.
Proof.
  intros Heq.
  assert (Hzero : Z.lxor s (Z.lxor s 93384688) = 0)
    by (rewrite Heq; apply Z.lxor_nilpotent).
  rewrite <- Z.lxor_assoc, Z.lxor_nilpotent, Z.lxor_0_l in Hzero.
  discriminate Hzero.
Qed.

Lemma lxor_constant_fits s :
  0 <= s < 2 ^ 64 -> 0 <= Z.lxor s 93384688 < 2 ^ 64.
Proof.
  intros [Hlo Hhi].
  assert (Hnonneg : 0 <= Z.lxor s 93384688) by (apply Z.lxor_nonneg; lia).
  split; [exact Hnonneg |].
  destruct (Z.eq_dec (Z.lxor s 93384688) 0) as [-> | Hnz]; [reflexivity |].
  apply Z.log2_lt_pow2; [lia |].
  eapply Z.le_lt_trans; [apply Z.log2_lxor; lia |].
  apply Z.max_lub_lt; [| reflexivity].
  destruct (Z.eq_dec s 0) as [-> | Hs]; [reflexivity |].
  apply Z.log2_lt_pow2; lia.
Qed.

Lemma seed_is_derived_by_lxor s : seed_is_derived s (Z.lxor s 93384688).
Proof.
  unfold seed_is_derived.
  split; [apply lxor_constant_moves |].
  split; [apply lxor_constant_involutive | apply lxor_constant_fits].
Qed.

Section DenseAndSparse.

Variables CoordinateType IndexType : Type.

Implicit Types (dense_points : list (DenseVector CoordinateType))
  (sparse_points : list (SparseVector CoordinateType IndexType))
  (params : LSHConstructionParameters).

(** A run on dense points: it throws having allocated nothing, or returns an
    index built around [dense_hash_of params]. *)
Lemma construct_dense_table_cases dense_points params log :
  (exists e, construct_table dense_points params log = (inl e, log))
  \/ (exists w,
         construct_table dense_points params log
         = (inr w, log ++ allocations_of w)
         /\ lsh_ w = dense_hash_of params
         /\ composite_l (composite_hash_table_ w) = l params
         /\ nn_distance (nn_query_ w) = CosineDistanceDense
         /\ num_probes_ w = l params
         /\ spec_first_invalid_field params = None
         /\ lsh_family params <> LSHFamily_Unknown).
Proof.
  destruct (spec_first_invalid_field params) as [field |] eqn:Hvalid.
  - left. eexists. apply construct_table_rejects, Hvalid.
  - destruct (LSHFamily_eqb (lsh_family params) LSHFamily_Unknown) eqn:Hfamily.
    + left. eexists. rewrite (construct_table_accepts _ _ _ Hvalid).
      destruct (lsh_family params); [reflexivity | discriminate ..].
    + assert (Hknown : lsh_family params <> LSHFamily_Unknown)
        by (intros Heq; rewrite Heq in Hfamily; discriminate Hfamily).
      right. rewrite (construct_dense_table_accepts _ _ _ Hvalid Hknown).
      destruct (new_LSH_then_helper_run CosineDistanceDense dense_points
                  params _ log (dense_hash_ctor_returns params))
        as (w & Hrun & Hlsh & Hl & Hdist & Hprobes).
      exists w. rewrite dense_hash_of_l in Hprobes. auto 10.
Qed.

(** A run on sparse points: as on dense points, or the hash constructor
    throws once the hash function is allocated. *)
Lemma construct_sparse_table_cases sparse_points params log :
  (exists e, construct_table sparse_points params log = (inl e, log))
  \/ (exists e,
         construct_table sparse_points params log
         = (inl e, log ++ [alloc_LSH (sparse_hash_of params)]))
  \/ (exists w,
         construct_table sparse_points params log
         = (inr w, log ++ allocations_of w)
         /\ lsh_ w = sparse_hash_of params
         /\ composite_l (composite_hash_table_ w) = l params
         /\ nn_distance (nn_query_ w) = CosineDistanceSparse
         /\ num_probes_ w = l params
         /\ spec_first_invalid_field params = None
         /\ lsh_family params <> LSHFamily_Unknown).
Proof.
  destruct (spec_first_invalid_field params) as [field |] eqn:Hvalid.
  - left. eexists. apply construct_table_rejects, Hvalid.
  - destruct (LSHFamily_eqb (lsh_family params) LSHFamily_Unknown) eqn:Hfamily.
    + left. eexists. rewrite (construct_table_accepts _ _ _ Hvalid).
      destruct (lsh_family params); [reflexivity | discriminate ..].
    + assert (Hknown : lsh_family params <> LSHFamily_Unknown)
        by (intros Heq; rewrite Heq in Hfamily; discriminate Hfamily).
      right. rewrite (construct_sparse_table_accepts _ _ _ Hvalid Hknown).
      destruct (LSHFunction_ctor (sparse_hash_of params)) as [e |] eqn:Hctor.
      * left. exists e. apply new_LSH_then_helper_throws, Hctor.
      * right.
        destruct (new_LSH_then_helper_run CosineDistanceSparse sparse_points
                    params _ log Hctor)
          as (w & Hrun & Hlsh & Hl & Hdist & Hprobes).
        exists w. rewrite sparse_hash_of_l in Hprobes. auto 10.
Qed.

(** X5. Construction is all or nothing.  On dense points a run of
    [construct_table] that throws has allocated nothing; on sparse points it
    has allocated nothing or only the hash function whose constructor threw.
    A run that returns has allocated exactly the eight objects of the
    returned index, the index itself last: hash function, data storage,
    factory, composite table, LSH table, table query, nearest-neighbour
    query, wrapper.  Earlier entries of the log are kept. *)
Theorem construct_table_is_all_or_nothing dense_points sparse_points params :
  (forall log,
      (forall e,
          Exn.outcome (construct_table dense_points params log) = inl e ->
          Exn.final (construct_table dense_points params log) = log)
      /\ (forall w,
             Exn.outcome (construct_table dense_points params log) = inr w ->
             Exn.final (construct_table dense_points params log)
             = log ++ allocations_of w))
  /\ (forall log,
         (forall e,
             Exn.outcome (construct_table sparse_points params log) = inl e ->
             Exn.final (construct_table sparse_points params log) = log
             \/ Exn.final (construct_table sparse_points params log)
                = log ++ [alloc_LSH (sparse_hash_of params)])
         /\ (forall w,
                Exn.outcome (construct_table sparse_points params log) = inr w ->
                Exn.final (construct_table sparse_points params log)
                = log ++ allocations_of w)).
Proof.
  split; intros log.
  - destruct (construct_dense_table_cases dense_points params log)
      as [[e Hrun] | (w & Hrun & _)]; rewrite Hrun; cbn; split;
      intros x Hx; try discriminate Hx; try reflexivity.
    injection Hx as <-. reflexivity.
  - destruct (construct_sparse_table_cases sparse_points params log)
      as [[e Hrun] | [[e Hrun] | (w & Hrun & _)]]; rewrite Hrun; cbn; split;
      intros x Hx; try discriminate Hx; auto.
    injection Hx as <-. reflexivity.
Qed.

(** X6. Dispatch.  The hash function of a returned index is of the class
    for the family and the point representation, constructed from the fields
    of the record in the order of the [new] expression; the distance is the
    cosine distance of the representation; the probe count is [l], at least
    1, and equals the number of tables of the composite hash table. *)
Theorem construct_table_dispatches dense_points sparse_points params :
  (forall log w,
      Exn.outcome (construct_table dense_points params log) = inr w ->
      (lsh_family params = Hyperplane ->
       lsh_ w = HyperplaneHashDense (dimension params) (k params) (l params)
                  (Z.lxor (seed params) 93384688))
      /\ (lsh_family params = CrossPolytope ->
          lsh_ w = CrossPolytopeHashDense (dimension params) (k params)
                     (l params) (num_rotations params)
                     (last_cp_dimension params)
                     (Z.lxor (seed params) 93384688))
      /\ nn_distance (nn_query_ w) = CosineDistanceDense
      /\ num_probes_ w = l params
      /\ 1 <= num_probes_ w
      /\ composite_l (composite_hash_table_ w) = get_l (lsh_ w))
  /\ (forall log w,
         Exn.outcome (construct_table sparse_points params log) = inr w ->
         (lsh_family params = Hyperplane ->
          lsh_ w = HyperplaneHashSparse (dimension params) (k params)
                     (l params) (Z.lxor (seed params) 93384688))
         /\ (lsh_family params = CrossPolytope ->
             lsh_ w = CrossPolytopeHashSparse (dimension params) (k params)
                        (l params) (num_rotations params)
                        (feature_hashing_dimension params)
                        (last_cp_dimension params)
                        (Z.lxor (seed params) 93384688))
         /\ nn_distance (nn_query_ w) = CosineDistanceSparse
         /\ num_probes_ w = l params
         /\ 1 <= num_probes_ w
         /\ composite_l (composite_hash_table_ w) = get_l (lsh_ w)).
Proof.
  assert (Hone : spec_first_invalid_field params = None -> 1 <= l params).
  { unfold spec_first_invalid_field.
    destruct (dimension params <? 1); [discriminate |].
    destruct (k params <? 1); [discriminate |].
    destruct (Z.ltb_spec (l params) 1); [discriminate | lia]. }
  split; intros log w Hret.
  - destruct (construct_dense_table_cases dense_points params log)
      as [[e Hcase] | (w1 & Hcase & Hlsh & Hl & Hdist & Hprobes & Hvalid & _)];
      rewrite Hcase in Hret; [discriminate Hret |].
    injection Hret as <-.
    rewrite Hl, Hdist, Hprobes, Hlsh, dense_hash_of_l.
    unfold dense_hash_of.
    repeat split; auto; intros Hfamily; rewrite Hfamily; reflexivity.
  - destruct (construct_sparse_table_cases sparse_points params log)
      as [[e Hcase] | [[e Hcase]
                      | (w1 & Hcase & Hlsh & Hl & Hdist & Hprobes & Hvalid & _)]];
      rewrite Hcase in Hret; try discriminate Hret.
    injection Hret as <-.
    rewrite Hl, Hdist, Hprobes, Hlsh, sparse_hash_of_l.
    unfold sparse_hash_of.
    repeat split; auto; intros Hfamily; rewrite Hfamily; reflexivity.
Qed.

(** X7. The seed of the hash function of a returned index is derived from
    the seed of the parameters: it is never that seed itself, xoring it with
    93384688 again gives the seed of the parameters back (so records with
    different seeds get hash functions with different seeds), and it fits in
    64 bits when the seed of the parameters does. *)
Theorem built_hash_seed_is_derived dense_points sparse_points params :
  (forall log w,
      Exn.outcome (construct_table dense_points params log) = inr w ->
      seed_is_derived (seed params) (get_seed (lsh_ w)))
  /\ (forall log w,
         Exn.outcome (construct_table sparse_points params log) = inr w ->
         seed_is_derived (seed params) (get_seed (lsh_ w))).
Proof.
  split; intros log w Hret.
  - destruct (construct_dense_table_cases dense_points params log)
      as [[e Hcase] | (w1 & Hcase & Hlsh & _)];
      rewrite Hcase in Hret; [discriminate Hret |].
    injection Hret as <-.
    rewrite Hlsh, dense_hash_of_seed. apply seed_is_derived_by_lxor.
  - destruct (construct_sparse_table_cases sparse_points params log)
      as [[e Hcase] | [[e Hcase] | (w1 & Hcase & Hlsh & _)]];
      rewrite Hcase in Hret; try discriminate Hret.
    injection Hret as <-.
    rewrite Hlsh, sparse_hash_of_seed. apply seed_is_derived_by_lxor.
Qed.

End DenseAndSparse.

End BuiltIndex.

(** ** More on the hash-bit sizing rule *)

Section MoreSizing.

Context `{Collaborators}.
Variables CoordinateType IndexType : Type.

Implicit Types (params : LSHConstructionParameters) (b : Z).

(** X8. The sizing rule returns exactly for the hyperplane family and for
    the cross-polytope family with its governing dimension set.  Whatever it
    throws is a setup error; for a family that is neither, it is the error of
    the unknown family, and the record is left as it was. *)
Theorem sizing_rule_returns_exactly_when b params :
  ((Exn.outcome (dense_sizing CoordinateType b params) = inr tt
    <-> lsh_family params = Hyperplane
        \/ (lsh_family params = CrossPolytope /\ 0 < dimension params))
   /\ (forall e,
          Exn.outcome (dense_sizing CoordinateType b params) = inl e ->
          is_setup_error e = true)
   /\ (lsh_family params = LSHFamily_Unknown ->
       dense_sizing CoordinateType b params
       = (inl (LSHNNTableSetupError Msg.unknown_family_for_bits), params)))
  /\ ((Exn.outcome (sparse_sizing CoordinateType IndexType b params) = inr tt
       <-> lsh_family params = Hyperplane
           \/ (lsh_family params = CrossPolytope
               /\ 0 < feature_hashing_dimension params))
      /\ (forall e,
             Exn.outcome (sparse_sizing CoordinateType IndexType b params)
             = inl e ->
             is_setup_error e = true)
      /\ (lsh_family params = LSHFamily_Unknown ->
          sparse_sizing CoordinateType IndexType b params
          = (inl (LSHNNTableSetupError Msg.unknown_family_for_bits), params))).
Proof.
  split.
  - destruct (lsh_family params) eqn:Hf.
    + rewrite (dense_sizing_unknown CoordinateType b params Hf).
      repeat split; try discriminate.
      * intros [Hh | [Hc _]]; discriminate.
      * intros e [= <-]. reflexivity.
    + rewrite (dense_sizing_hyperplane CoordinateType b params Hf).
      repeat split; try discriminate. left. reflexivity.
    + rewrite (dense_sizing_cross_polytope CoordinateType b params Hf).
      destruct (Z.leb_spec (dimension params) 0) as [Hle | Hgt].
      * repeat split; try discriminate.
        -- intros [Hh | [_ Hpos]]; [discriminate | lia].
        -- intros e [= <-]. reflexivity.
      * destruct (call_compute_k_parameters_for_bits_frame
                    (dimension params) b params) as [Hret _].
        rewrite Hret. repeat split; try discriminate. right. auto.
  - destruct (lsh_family params) eqn:Hf.
    + rewrite (sparse_sizing_unknown CoordinateType IndexType b params Hf).
      repeat split; try discriminate.
      * intros [Hh | [Hc _]]; discriminate.
      * intros e [= <-]. reflexivity.
    + rewrite (sparse_sizing_hyperplane CoordinateType IndexType b params Hf).
      repeat split; try discriminate. left. reflexivity.
    + rewrite (sparse_sizing_cross_polytope CoordinateType IndexType b params Hf).
      destruct (Z.leb_spec (feature_hashing_dimension params) 0) as [Hle | Hgt].
      * repeat split; try discriminate.
        -- intros [Hh | [_ Hpos]]; [discriminate | lia].
        -- intros e [= <-]. reflexivity.
      * destruct (call_compute_k_parameters_for_bits_frame
                    (feature_hashing_dimension params) b params) as [Hret _].
        rewrite Hret. repeat split; try discriminate. right. auto.
Qed.

Lemma call_compute_k_parameters_for_bits_fields rotation_dim b params :
  (k (Exn.final (call_compute_k_parameters_for_bits rotation_dim b params)),
   last_cp_dimension
     (Exn.final (call_compute_k_parameters_for_bits rotation_dim b params)))
  = compute_k_parameters_for_bits rotation_dim b (k params)
      (last_cp_dimension params).
Proof.
  unfold call_compute_k_parameters_for_bits. exn_unfold. cbn [fst snd].
  destruct (compute_k_parameters_for_bits rotation_dim b (k params)
              (last_cp_dimension params)) as [new_k new_last].
  reflexivity.
Qed.

(** X9. For the cross-polytope family with the governing dimension set, the
    rule stores the pair [compute_k_parameters_for_bits] computes from that
    dimension, the number of hash bits and the old values of the two fields:
    from [dimension] on dense points, from [feature_hashing_dimension] on
    sparse points.  Hence the two specialisations give the same result
    whenever the two dimensions are equal, and for every other family. *)
Theorem cross_polytope_sizing_stores_helper_result b params :
  (lsh_family params = CrossPolytope ->
   (0 < dimension params ->
    (k (Exn.final (dense_sizing CoordinateType b params)),
     last_cp_dimension (Exn.final (dense_sizing CoordinateType b params)))
    = compute_k_parameters_for_bits (dimension params) b (k params)
        (last_cp_dimension params))
   /\ (0 < feature_hashing_dimension params ->
       (k (Exn.final (sparse_sizing CoordinateType IndexType b params)),
        last_cp_dimension
          (Exn.final (sparse_sizing CoordinateType IndexType b params)))
       = compute_k_parameters_for_bits (feature_hashing_dimension params) b
           (k params) (last_cp_dimension params)))
  /\ (lsh_family params <> CrossPolytope
      \/ (dimension params = feature_hashing_dimension params
          /\ 0 < dimension params) ->
      dense_sizing CoordinateType b params
      = sparse_sizing CoordinateType IndexType b params).
Proof.
  split.
  - intros Hf.
    rewrite (dense_sizing_cross_polytope CoordinateType b params Hf),
      (sparse_sizing_cross_polytope CoordinateType IndexType b params Hf).
    split; intros Hpos; (case_test; [lia |]);
      apply call_compute_k_parameters_for_bits_fields.
  - intros Hagree. destruct (lsh_family params) eqn:Hf.
    + rewrite (dense_sizing_unknown CoordinateType b params Hf),
        (sparse_sizing_unknown CoordinateType IndexType b params Hf).
      reflexivity.
    + rewrite (dense_sizing_hyperplane CoordinateType b params Hf),
        (sparse_sizing_hyperplane CoordinateType IndexType b params Hf).
      reflexivity.
    + destruct Hagree as [Hno | [Heq Hpos]]; [congruence |].
      rewrite (dense_sizing_cross_polytope CoordinateType b params Hf),
        (sparse_sizing_cross_polytope CoordinateType IndexType b params Hf).
      rewrite <- Heq. repeat (case_test; [lia |]). reflexivity.
Qed.

Implicit Types (dense_points : list (DenseVector CoordinateType))
  (sparse_points : list (SparseVector CoordinateType IndexType)).

Lemma sized_hyperplane_parameters b params :
  lsh_family params = Hyperplane ->
  1 <= dimension params -> 1 <= l params ->
  distance_function params = NegativeInnerProduct ->
  (1 <= b ->
   spec_first_invalid_field (set_k b params) = None
   /\ lsh_family (set_k b params) <> LSHFamily_Unknown)
  /\ (b <= 0 -> spec_first_invalid_field (set_k b params) = Some invalid_k).
Proof.
  intros Hf Hdim Hl Hdist.
  unfold spec_first_invalid_field. cbn. rewrite Hf, Hdist.
  split; intros Hb.
  - split; [| discriminate]. repeat (case_test; [lia |]). reflexivity.
  - case_test; [lia |]. case_test; [reflexivity | lia].
Qed.

(** X10. Sizing, then building.  For the hyperplane family and a record
    whose dimension, l and distance function are valid, whatever its k:
    after the sizing rule with [b >= 1] hash bits, [construct_table] returns
    an index whose hyperplane hash has [k = b] functions and whose probe
    count is [l]; after the sizing rule with [b <= 0] it throws the setup
    error of k and allocates nothing.  On dense and on sparse points. *)
Theorem sizing_then_construct_table dense_points sparse_points b params :
  lsh_family params = Hyperplane ->
  1 <= dimension params -> 1 <= l params ->
  distance_function params = NegativeInnerProduct ->
  (forall log,
      (1 <= b ->
       exists w log',
         construct_table dense_points
           (Exn.final (dense_sizing CoordinateType b params)) log
         = (inr w, log')
         /\ lsh_ w = HyperplaneHashDense (dimension params) b (l params)
                       (Z.lxor (seed params) 93384688)
         /\ num_probes_ w = l params)
      /\ (b <= 0 ->
          construct_table dense_points
            (Exn.final (dense_sizing CoordinateType b params)) log
          = (inl (LSHNNTableSetupError Msg.bad_k), log)))
  /\ (forall log,
         (1 <= b ->
          exists w log',
            construct_table sparse_points
              (Exn.final (sparse_sizing CoordinateType IndexType b params)) log
            = (inr w, log')
            /\ lsh_ w = HyperplaneHashSparse (dimension params) b (l params)
                          (Z.lxor (seed params) 93384688)
            /\ num_probes_ w = l params)
         /\ (b <= 0 ->
             construct_table sparse_points
               (Exn.final (sparse_sizing CoordinateType IndexType b params)) log
             = (inl (LSHNNTableSetupError Msg.bad_k), log))).
Proof.
  intros Hf Hdim Hl Hdist.
  rewrite (dense_sizing_hyperplane CoordinateType b params Hf),
    (sparse_sizing_hyperplane CoordinateType IndexType b params Hf).
  cbn [Exn.final snd].
  destruct (sized_hyperplane_parameters b params Hf Hdim Hl Hdist)
    as [Hgood Hbad].
  assert (Hfamily : lsh_family (set_k b params) = Hyperplane) by exact Hf.
  split; intros log; split; intros Hb.
  - destruct (Hgood Hb) as [Hvalid Hknown].
    destruct (construct_dense_table_cases dense_points (set_k b params) log)
      as [[e Hcase] | (w & Hcase & Hlsh & _ & _ & Hprobes & _)].
    + rewrite (construct_dense_table_accepts _ _ _ Hvalid Hknown) in Hcase.
      destruct (new_LSH_then_helper_run CosineDistanceDense dense_points
                  (set_k b params) _ log
                  (dense_hash_ctor_returns (set_k b params)))
        as (w & Hrun & _).
      rewrite Hrun in Hcase. discriminate Hcase.
    + exists w. eexists. split; [exact Hcase |].
      split; [| exact Hprobes].
      rewrite Hlsh. unfold dense_hash_of. rewrite Hfamily. reflexivity.
  - apply (construct_table_rejects _ _ _ (Hbad Hb)).
  - destruct (Hgood Hb) as [Hvalid Hknown].
    rewrite (construct_sparse_table_accepts _ _ _ Hvalid Hknown).
    assert (Hctor : LSHFunction_ctor (sparse_hash_of (set_k b params)) = None)
      by (unfold sparse_hash_of; rewrite Hfamily; reflexivity).
    destruct (new_LSH_then_helper_run CosineDistanceSparse sparse_points
                (set_k b params) _ log Hctor)
      as (w & Hrun & Hlsh & _ & _ & Hprobes).
    exists w. eexists. split; [exact Hrun |].
    rewrite Hprobes, Hlsh, sparse_hash_of_l.
    unfold sparse_hash_of. rewrite Hfamily. split; reflexivity.
  - apply (construct_table_rejects _ _ _ (Hbad Hb)).
Qed.

End MoreSizing.

(** ** The facade and its clients *)

Section SetterAlgebra.

Context {PointType : Type}.
Implicit Types (w : LSHNNTableWrapper PointType) (p c : Z).

(** X11. How the setters compose.  Of two [set_max_num_candidates] in a
    row, and of two [set_num_probes] with arguments of at least 1, the last
    one wins.  A [set_num_probes p] with [p >= 1] and a
    [set_max_num_candidates] can be swapped.  With [p <= 0] they cannot:
    the sequence throws either way, but a cap set before the failing call
    stays set and a cap to be set after it never is. *)
Theorem setters_compose w p p' c c' :
  (set_max_num_candidates c ;;; set_max_num_candidates c') w
  = set_max_num_candidates c' w
  /\ (1 <= p -> 1 <= p' ->
      (set_num_probes p ;;; set_num_probes p') w = set_num_probes p' w)
  /\ (1 <= p ->
      (set_num_probes p ;;; set_max_num_candidates c) w
      = (set_max_num_candidates c ;;; set_num_probes p) w)
  /\ (p <= 0 ->
      (set_max_num_candidates c ;;; set_num_probes p) w
      = (inl (LSHNearestNeighborTableError Msg.num_probes),
         with_max_num_candidates c w)
      /\ (set_num_probes p ;;; set_max_num_candidates c) w
         = (inl (LSHNearestNeighborTableError Msg.num_probes), w)).
Proof.
  split; [reflexivity |]. split; [| split].
  - intros Hp Hp'. unfold Exn.bind.
    rewrite (set_num_probes_returns w Hp), !(set_num_probes_returns _ Hp').
    reflexivity.
  - intros Hp. unfold Exn.bind.
    rewrite (set_num_probes_returns w Hp). cbn.
    rewrite (set_num_probes_returns _ Hp). reflexivity.
  - intros Hp. unfold Exn.bind.
    rewrite (set_num_probes_throws w Hp). cbn.
    rewrite (set_num_probes_throws _ Hp). split; reflexivity.
Qed.

End SetterAlgebra.

Section FacadeProofs.

Context {PointType KeyType DistanceType QueryStatistics : Type}.

Variable engine : @Engine PointType KeyType DistanceType QueryStatistics.

Implicit Types
  (s : @FacadeState PointType KeyType DistanceType QueryStatistics)
  (c : @FacadeCall PointType KeyType DistanceType)
  (cs : list (@FacadeCall PointType KeyType DistanceType)).

Lemma same_components_refl (w : LSHNNTableWrapper PointType) :
  same_components w w.
Proof. repeat split. Qed.

Lemma same_components_trans (w1 w2 w3 : LSHNNTableWrapper PointType) :
  same_components w1 w2 -> same_components w2 w3 -> same_components w1 w3.
Proof.
  unfold same_components.
  intros (H1 & H2 & H3 & H4 & H5 & H6 & H7) (G1 & G2 & G3 & G4 & G5 & G6 & G7).
  repeat split; congruence.
Qed.

(** One call: the knobs, the components and the engine calls after it. *)
Lemma run_call_spec c s :
  knobs_of (facade_index (run_call engine c s))
  = knobs_after_call c (knobs_of (facade_index s))
  /\ same_components (facade_index s) (facade_index (run_call engine c s))
  /\ engine_calls (run_call engine c s)
     = engine_calls s ++ engine_call_of c (knobs_of (facade_index s)).
Proof.
  destruct s as [w calls].
  destruct c; cbn; rewrite ?app_nil_r;
    try (repeat split; reflexivity).
  unfold on_index, set_num_probes. exn_unfold. cbn.
  destruct (num_probes <=? 0); cbn; repeat split.
Qed.

Lemma run_calls_spec cs s :
  knobs_of (facade_index (run_calls engine cs s))
  = knobs_after cs (knobs_of (facade_index s))
  /\ same_components (facade_index s) (facade_index (run_calls engine cs s))
  /\ engine_calls (run_calls engine cs s)
     = engine_calls s ++ engine_calls_of cs (knobs_of (facade_index s)).
Proof.
  revert s. induction cs as [| c cs IH]; intros s.
  - cbn. rewrite app_nil_r. split; [| split]; try reflexivity.
    apply same_components_refl.
  - destruct (run_call_spec c s) as (Hknobs & Hsame & Hcalls).
    destruct (IH (run_call engine c s)) as (IHknobs & IHsame & IHcalls).
    change (run_calls engine (c :: cs) s)
      with (run_calls engine cs (run_call engine c s)).
    change (knobs_after (c :: cs) (knobs_of (facade_index s)))
      with (knobs_after cs (knobs_after_call c (knobs_of (facade_index s)))).
    cbn [engine_calls_of].
    split; [| split].
    + rewrite IHknobs, Hknobs. reflexivity.
    + eapply same_components_trans; eassumption.
    + rewrite IHcalls, Hcalls, Hknobs, app_assoc. reflexivity.
Qed.

(** X12. A client's sequence of calls, whatever the query objects answer
    or throw: the components of the index are never changed; the knobs end
    up as the setter calls alone determine, a [set_num_probes] with an
    argument of at most 0 and every other method leaving them alone; the
    knob methods make no call on the query objects and every other method
    makes exactly one, with the query point passed twice to the
    nearest-neighbour query and with the knob values of that moment. *)
Theorem facade_refines_the_call_list cs s :
  knobs_of (facade_index (run_calls engine cs s))
  = knobs_after cs (knobs_of (facade_index s))
  /\ same_components (facade_index s) (facade_index (run_calls engine cs s))
  /\ engine_calls (run_calls engine cs s)
     = engine_calls s ++ engine_calls_of cs (knobs_of (facade_index s)).
Proof. apply run_calls_spec. Qed.

(** X13. What a query method gives back after any sequence of calls is what
    the query objects answer, or throw, to the one call made with the knob
    values the earlier setter calls determine; the wrapper adds no error of
    its own and does not alter the answer. *)
Theorem queries_use_the_knobs_of_the_moment cs s q k_neighbors threshold result :
  let knobs := knobs_after cs (knobs_of (facade_index s)) in
  let made := engine_calls s ++ engine_calls_of cs (knobs_of (facade_index s)) in
  let s' := run_calls engine cs s in
  Exn.outcome (find_closest engine q s')
  = engine made (nn_find_closest q q (fst knobs) (snd knobs))
  /\ Exn.outcome (find_k_nearest_neighbors engine q k_neighbors result s')
     = engine made
         (nn_find_k_nearest_neighbors q q k_neighbors (fst knobs) (snd knobs)
            result)
  /\ Exn.outcome (find_near_neighbors engine q threshold result s')
     = engine made
         (nn_find_near_neighbors q q threshold (fst knobs) (snd knobs) result)
  /\ Exn.outcome (get_candidates_with_duplicates engine q result s')
     = engine made
         (query_get_candidates_with_duplicates q (fst knobs) (snd knobs)
            result)
  /\ Exn.outcome (get_unique_candidates engine q result s')
     = engine made
         (query_get_unique_candidates q (fst knobs) (snd knobs) result)
  /\ Exn.outcome (get_unique_sorted_candidates engine q result s')
     = engine made
         (query_get_unique_sorted_candidates q (fst knobs) (snd knobs) result)
  /\ Exn.outcome (reset_query_statistics engine s')
     = engine made nn_reset_query_statistics
  /\ Exn.outcome (get_query_statistics engine s')
     = engine made nn_get_query_statistics.
Proof.
  intros knobs made s'.
  destruct (run_calls_spec cs s) as (Hknobs & _ & Hcalls).
  fold s' in Hknobs, Hcalls. fold knobs in Hknobs. fold made in Hcalls.
  assert (Hnp : num_probes_ (facade_index s') = fst knobs)
    by (rewrite <- Hknobs; reflexivity).
  assert (Hmc : max_num_candidates_ (facade_index s') = snd knobs)
    by (rewrite <- Hknobs; reflexivity).
  unfold find_closest, find_k_nearest_neighbors, find_near_neighbors,
    get_candidates_with_duplicates, get_unique_candidates,
    get_unique_sorted_candidates, reset_query_statistics,
    get_query_statistics, this_index, call_engine.
  exn_unfold. cbn [fst snd]. rewrite Hnp, Hmc, Hcalls. repeat split.
Qed.

Lemma knobs_after_call_positive c (knobs : Z * Z) :
  1 <= fst knobs -> 1 <= fst (knobs_after_call c knobs).
Proof.
  intros Hpos. destruct c; cbn; try assumption.
  destruct (Z.leb_spec num_probes 0); cbn; [assumption | lia].
Qed.

Lemma engine_call_of_asks_for_a_probe c (knobs : Z * Z) :
  1 <= fst knobs ->
  Forall (@asks_for_a_probe PointType KeyType DistanceType QueryStatistics)
    (engine_call_of c knobs).
Proof.
  intros Hpos. destruct knobs as [np mc]. cbn in Hpos.
  destruct c; cbn; repeat constructor;
    intros np' mc' Hk; cbn in Hk; try discriminate Hk;
    injection Hk as <- _; exact Hpos.
Qed.

Lemma engine_calls_of_ask_for_a_probe cs (knobs : Z * Z) :
  1 <= fst knobs ->
  Forall (@asks_for_a_probe PointType KeyType DistanceType QueryStatistics)
    (engine_calls_of cs knobs).
Proof.
  revert knobs. induction cs as [| c cs IH]; intros knobs Hpos.
  - constructor.
  - cbn [engine_calls_of]. apply Forall_app. split.
    + apply engine_call_of_asks_for_a_probe, Hpos.
    + apply IH, knobs_after_call_positive, Hpos.
Qed.

Lemma knobs_after_positive cs (knobs : Z * Z) :
  1 <= fst knobs -> 1 <= fst (knobs_after cs knobs).
Proof.
  revert knobs. induction cs as [| c cs IH]; intros knobs Hpos.
  - exact Hpos.
  - change (knobs_after (c :: cs) knobs)
      with (knobs_after cs (knobs_after_call c knobs)).
    apply IH, knobs_after_call_positive, Hpos.
Qed.

Lemma index_is_wired_same_components (w w' : LSHNNTableWrapper PointType) :
  same_components w w' -> index_is_wired w -> index_is_wired w'.
Proof.
  unfold same_components, index_is_wired.
  intros (-> & -> & -> & -> & -> & -> & ->). auto.
Qed.

(** From an index with a probe count of at least 1 and no call made yet. *)
Lemma fresh_index_invariant (w : LSHNNTableWrapper PointType) cs :
  1 <= num_probes_ w ->
  index_is_wired w ->
  let s := run_calls engine cs {| facade_index := w; engine_calls := [] |} in
  1 <= num_probes_ (facade_index s)
  /\ Forall asks_for_a_probe (engine_calls s)
  /\ same_components w (facade_index s)
  /\ index_is_wired (facade_index s).
Proof.
  intros Hpos Hwired s.
  destruct (run_calls_spec cs {| facade_index := w; engine_calls := [] |})
    as (Hknobs & Hsame & Hcalls).
  fold s in Hknobs, Hsame, Hcalls. cbn in Hknobs, Hsame, Hcalls.
  split; [| split; [| split]].
  - change (num_probes_ (facade_index s))
      with (fst (knobs_of (facade_index s))).
    rewrite Hknobs. apply knobs_after_positive, Hpos.
  - rewrite Hcalls. apply engine_calls_of_ask_for_a_probe, Hpos.
  - exact Hsame.
  - apply (index_is_wired_same_components Hsame Hwired).
Qed.

End FacadeProofs.

Section BuiltFacade.

Context `{Collaborators}.
Context {CoordinateType IndexType KeyType DistanceType QueryStatistics : Type}.

Variable dense_engine :
  @Engine (DenseVector CoordinateType) KeyType DistanceType QueryStatistics.
Variable sparse_engine :
  @Engine (SparseVector CoordinateType IndexType) KeyType DistanceType
    QueryStatistics.

(** X14. The life of an index.  Start from an index returned by
    [construct_table], on dense or on sparse points, and let a client make
    any sequence of calls of its methods, some of which may throw.  At the
    end the probe count is still at least 1, every call made on the query
    objects asked for at least one probe, the components of the index are
    the ones it was built with and they are still linked to each other. *)
Theorem built_index_invariant dense_points sparse_points params :
  (forall log w cs,
      Exn.outcome (construct_table dense_points params log) = inr w ->
      let s := run_calls dense_engine cs
                 {| facade_index := w; engine_calls := [] |} in
      1 <= num_probes_ (facade_index s)
      /\ Forall asks_for_a_probe (engine_calls s)
      /\ same_components w (facade_index s)
      /\ index_is_wired (facade_index s))
  /\ (forall log w cs,
         Exn.outcome (construct_table sparse_points params log) = inr w ->
         let s := run_calls sparse_engine cs
                    {| facade_index := w; engine_calls := [] |} in
         1 <= num_probes_ (facade_index s)
         /\ Forall asks_for_a_probe (engine_calls s)
         /\ same_components w (facade_index s)
         /\ index_is_wired (facade_index s)).
Proof.
  assert (Hone : spec_first_invalid_field params = None -> 1 <= l params).
  { unfold spec_first_invalid_field.
    destruct (dimension params <? 1); [discriminate |].
    destruct (k params <? 1); [discriminate |].
    destruct (Z.ltb_spec (l params) 1); [discriminate | lia]. }
  split; intros log w cs Hret.
  - destruct (construct_table_returns_from_helper _ _ _ Hret)
      as (lsh & log1 & Hhelper).
    destruct (construction_helper_run CosineDistanceDense dense_points params
                lsh log1) as (w0 & Hrun & _ & Hwired & _).
    destruct (construct_dense_table_cases dense_points params log)
      as [[e Hcase] | (w1 & Hcase & _ & _ & _ & Hprobes & Hvalid & _)];
      rewrite Hcase in Hret; [discriminate Hret |].
    injection Hret as <-.
    change (construction_helper CosineDistance dense_points params lsh log1)
      with (construction_helper CosineDistanceDense dense_points params lsh
              log1) in Hhelper.
    rewrite Hrun, Hcase in Hhelper. injection Hhelper as -> _.
    apply fresh_index_invariant; [rewrite Hprobes; auto | exact Hwired].
  - destruct (construct_table_returns_from_helper _ _ _ Hret)
      as (lsh & log1 & Hhelper).
    destruct (construction_helper_run CosineDistanceSparse sparse_points params
                lsh log1) as (w0 & Hrun & _ & Hwired & _).
    destruct (construct_sparse_table_cases sparse_points params log)
      as [[e Hcase] | [[e Hcase]
                      | (w1 & Hcase & _ & _ & _ & Hprobes & Hvalid & _)]];
      rewrite Hcase in Hret; try discriminate Hret.
    injection Hret as <-.
    change (construction_helper CosineDistance sparse_points params lsh log1)
      with (construction_helper CosineDistanceSparse sparse_points params lsh
              log1) in Hhelper.
    rewrite Hrun, Hcase in Hhelper. injection Hhelper as -> _.
    apply fresh_index_invariant; [rewrite Hprobes; auto | exact Hwired].
Qed.

End BuiltFacade.

(** ** The further properties at concrete inputs *)

Section MoreWitnesses.

#[local] Existing Instance example_collaborators.

Example example_session_runs :
  run_calls example_engine example_calls example_fresh_state
  = {| facade_index :=
         with_num_probes 3 (with_max_num_candidates 5 example_index);
       engine_calls :=
         [ existT _ _ (nn_find_closest example_query_point example_query_point
                         10 (-1));
           existT _ _ (query_get_unique_candidates example_query_point 3 5
                         []) ] |}.
Proof. reflexivity. Qed.

Lemma construct_table_unknown_family_witness :
  lsh_family (example_parameters LSHFamily_Unknown) = LSHFamily_Unknown
  /\ construct_table example_dense_points
       (example_parameters LSHFamily_Unknown) []
     = (inl (LSHNNTableSetupError Msg.unknown_family), []).
Proof.
  split; [reflexivity |].
  exact (proj1 (proj2 (proj2
           (construct_table_unknown_family example_dense_points
              (example_parameters LSHFamily_Unknown) [] eq_refl)))
           eq_refl).
Defined.

Lemma construct_table_returns_only_for_valid_parameters_witness :
  Exn.outcome (construct_table example_dense_points
                 (example_parameters Hyperplane) []) = inr example_index
  /\ spec_valid_dense (example_parameters Hyperplane) = true.
Proof.
  split; [reflexivity |].
  exact (proj1 (construct_table_returns_only_for_valid_parameters
                  example_dense_points (example_parameters Hyperplane) []
                  (w := example_index) eq_refl)).
Defined.

Lemma construct_table_wires_the_index_witness :
  Exn.outcome (construct_table example_dense_points
                 (example_parameters Hyperplane) []) = inr example_index
  /\ index_is_wired example_index.
Proof.
  split; [reflexivity |].
  exact (proj1 (construct_table_wires_the_index example_dense_points
                  (example_parameters Hyperplane) []
                  (w := example_index) eq_refl)).
Defined.


Lemma construct_table_is_all_or_nothing_witness :
  (Exn.outcome (construct_table example_dense_points
                  example_parameters_without_dimension [])
   = inl (LSHNNTableSetupError Msg.bad_dimension)
   /\ Exn.final (construct_table example_dense_points
                   example_parameters_without_dimension []) = [])
  /\ (Exn.outcome (construct_table example_dense_points
                     (example_parameters Hyperplane) []) = inr example_index
      /\ Exn.final (construct_table example_dense_points
                      (example_parameters Hyperplane) [])
         = [] ++ allocations_of example_index).
Proof.
  split; (split; [reflexivity |]).
  - exact (proj1 (proj1 (construct_table_is_all_or_nothing
                           example_dense_points example_sparse_points
                           example_parameters_without_dimension) [])
             _ eq_refl).
  - exact (proj2 (proj1 (construct_table_is_all_or_nothing
                           example_dense_points example_sparse_points
                           (example_parameters Hyperplane)) [])
             example_index eq_refl).
Defined.

Lemma construct_table_dispatches_witness :
  (Exn.outcome (construct_table example_dense_points
                  (example_parameters Hyperplane) []) = inr example_index
   /\ lsh_family (example_parameters Hyperplane) = Hyperplane)
  /\ lsh_ example_index = HyperplaneHashDense 128 8 10 502905794.
Proof.
  split; [split; reflexivity |].
  exact (proj1 (proj1 (construct_table_dispatches example_dense_points
                         example_sparse_points (example_parameters Hyperplane))
                  [] example_index eq_refl)
           eq_refl).
Defined.

Lemma built_hash_seed_is_derived_witness :
  Exn.outcome (construct_table example_dense_points
                 (example_parameters Hyperplane) []) = inr example_index
  /\ seed_is_derived 409556018 (get_seed (lsh_ example_index)).
Proof.
  split; [reflexivity |].
  exact (proj1 (built_hash_seed_is_derived example_dense_points
                  example_sparse_points (example_parameters Hyperplane))
           [] example_index eq_refl).
Defined.

Lemma sizing_rule_returns_exactly_when_witness :
  lsh_family (example_parameters LSHFamily_Unknown) = LSHFamily_Unknown
  /\ compute_number_of_hash_functions (DenseVector Z) 16
       (example_parameters LSHFamily_Unknown)
     = (inl (LSHNNTableSetupError Msg.unknown_family_for_bits),
        example_parameters LSHFamily_Unknown).
Proof.
  split; [reflexivity |].
  exact (proj2 (proj2 (proj1 (sizing_rule_returns_exactly_when Z nat 16
                                (example_parameters LSHFamily_Unknown))))
           eq_refl).
Defined.

Lemma cross_polytope_sizing_stores_helper_result_witness :
  (lsh_family (example_parameters CrossPolytope) = CrossPolytope
   /\ 0 < dimension (example_parameters CrossPolytope))
  /\ (k (Exn.final (compute_number_of_hash_functions (DenseVector Z) 32
                      (example_parameters CrossPolytope))),
      last_cp_dimension
        (Exn.final (compute_number_of_hash_functions (DenseVector Z) 32
                      (example_parameters CrossPolytope))))
     = (4, 128).
Proof.
  split; [split; reflexivity |].
  exact (proj1 (proj1 (cross_polytope_sizing_stores_helper_result Z nat 32
                         (example_parameters CrossPolytope)) eq_refl)
           eq_refl).
Defined.

Lemma sizing_then_construct_table_witness :
  (lsh_family (example_parameters Hyperplane) = Hyperplane
   /\ 1 <= dimension (example_parameters Hyperplane)
   /\ 1 <= l (example_parameters Hyperplane)
   /\ distance_function (example_parameters Hyperplane) = NegativeInnerProduct
   /\ 1 <= 16)
  /\ exists w log',
       construct_table example_dense_points
         (Exn.final (compute_number_of_hash_functions (DenseVector Z) 16
                       (example_parameters Hyperplane))) []
       = (inr w, log')
       /\ lsh_ w = HyperplaneHashDense 128 16 10 502905794
       /\ num_probes_ w = 10.
Proof.
  assert (Hdim : 1 <= dimension (example_parameters Hyperplane)) by (cbn; lia).
  assert (Hl : 1 <= l (example_parameters Hyperplane)) by (cbn; lia).
  assert (Hb : 1 <= 16) by lia.
  split; [repeat split; assumption |].
  exact (proj1 (proj1 (sizing_then_construct_table example_dense_points
                         example_sparse_points 16
                         (example_parameters Hyperplane)
                         eq_refl Hdim Hl eq_refl) [])
           Hb).
Defined.

Lemma setters_compose_witness :
  (0 <= 0
   /\ (set_max_num_candidates 7 ;;; set_num_probes 0) example_index
      = (inl (LSHNearestNeighborTableError Msg.num_probes),
         with_max_num_candidates 7 example_index))
  /\ (1 <= 3
      /\ (set_num_probes 3 ;;; set_max_num_candidates 7) example_index
         = (set_max_num_candidates 7 ;;; set_num_probes 3) example_index).
Proof.
  assert (Hzero : 0 <= 0) by lia.
  assert (Hthree : 1 <= 3) by lia.
  split; (split; [assumption |]).
  - exact (proj1 (proj2 (proj2 (proj2
             (setters_compose example_index 0 1 7 7))) Hzero)).
  - exact (proj1 (proj2 (proj2
             (setters_compose example_index 3 1 7 7))) Hthree).
Defined.

Lemma built_index_invariant_witness :
  Exn.outcome (construct_table example_dense_points
                 (example_parameters Hyperplane) []) = inr example_index
  /\ 1 <= num_probes_
            (facade_index
               (run_calls example_engine example_calls example_fresh_state))
  /\ Forall asks_for_a_probe
       (engine_calls
          (run_calls example_engine example_calls example_fresh_state)).
Proof.
  assert (Hret : Exn.outcome (construct_table example_dense_points
                                (example_parameters Hyperplane) [])
                 = inr example_index) by reflexivity.
  split; [exact Hret |].
  destruct (proj1 (built_index_invariant example_engine example_engine
                     example_dense_points (@nil (SparseVector Z nat))
                     (example_parameters Hyperplane))
              [] example_index example_calls Hret)
    as (Hprobes & Hcalls & _).
  split; [exact Hprobes | exact Hcalls].
Defined.

End MoreWitnesses.
